(** * freshcart-backend: the request handlers of [server.js] over a model of
    the relational store.

    The program is an Express application.  Every route handler issues one
    or two statements against a SQLite database and turns the callback's
    [(err, row)] into an HTTP response.  The development below embeds

    - the values a request carries ([jsval]) and the values a column holds
      ([sqlval]), with the driver's binding and SQLite's column affinities;
    - the three tables and the statements the handlers issue;
    - the upload middleware [handleFileUpload];
    - each route handler, as a function from the request and the database
      to a response (and the new database for the mutating routes).

    What lies outside the repository is kept abstract: SQLite's conversions
    between text and numbers, the driver's rounding of a column value to a
    JavaScript number, Node's base64 encoder and bcryptjs are variables of
    the section [Server].  A failure reported by the store for
    a reason outside the modelled tables (I/O, locking) is an input of each
    handler: [fault = Some text] makes the statement call back with [err]. *)

From Stdlib Require Import ZArith QArith List String Ascii Bool Lia.
From Stdlib.Strings Require Import Byte.
From Stdlib Require Import DecimalString DecimalZ.
From stdpp Require Import base option gmap strings list.

Set Warnings "-register-all".
Local Open Scope string_scope.
Local Open Scope list_scope.

(** ** Values *)

(** The values a request can carry in a field of its body or of its query
    string: form fields and multipart fields are strings, a JSON body adds
    numbers, booleans and null, and a field that is not sent reads as
    [undefined].  A number is given by its value, a rational; the numbers
    JavaScript has are the doubles, and the driver rounds what it reads from
    a column to one ([to_double] below).  An array or a nested object is
    kept as the text [String(v)] gives for it, which is all the store sees
    of it. *)
Inductive jsval : Type :=
| JUndefined
| JNull
| JBool (b : bool)
| JNum (n : Q)
| JStr (s : string)
| JObject (text : string).

(** JavaScript's ToBoolean, as used by [!x], [x || y] and [if (x)]. *)
Definition truthy (v : jsval) : bool :=
  match v with
  | JUndefined | JNull => false
  | JBool b => b
  | JNum n => negb (Qeq_bool n 0)
  | JStr s => negb (String.eqb s "")
  | JObject _ => true
  end.

Definition typeof (v : jsval) : string :=
  match v with
  | JUndefined => "undefined"
  | JNull => "object"
  | JBool _ => "boolean"
  | JNum _ => "number"
  | JStr _ => "string"
  | JObject _ => "object"
  end.

(** What a column of scalar affinity holds.  SQLite's INTEGER and REAL are
    one class here, with the exact value the column holds (an INTEGER column
    holds 64-bit integers that no JavaScript number equals). *)
Inductive sqlval : Type :=
| SNull
| SNum (n : Q)
| SText (s : string).

(** The driver's parameter binding: strings as TEXT, numbers as INTEGER or
    REAL, booleans as INTEGER 1 or 0, [null] as NULL, an object as the TEXT
    of its string conversion, and [undefined] is left unbound, which SQLite
    reads as NULL. *)
Definition bind (v : jsval) : sqlval :=
  match v with
  | JUndefined | JNull => SNull
  | JBool b => SNum (inject_Z (Z.b2z b))
  | JNum n => SNum n
  | JStr s => SText s
  | JObject text => SText text
  end.

(** Equality of values is decidable. *)
#[global] Instance Q_eq_dec : EqDecision Q.
Proof. solve_decision. Defined.

#[global] Instance jsval_eq_dec : EqDecision jsval.
Proof. solve_decision. Defined.

#[global] Instance sqlval_eq_dec : EqDecision sqlval.
Proof. solve_decision. Defined.

(** ** Tables *)

Definition bytes : Type := list byte.

(** [inventory]: id INTEGER PRIMARY KEY AUTOINCREMENT, name TEXT, price
    REAL, stock INTEGER, unit TEXT, category TEXT, image BLOB.  The image
    column is only ever written with a Buffer or [null]. *)
Record product : Type := mkProduct {
  inv_id : Z;
  inv_name : sqlval;
  inv_price : sqlval;
  inv_stock : sqlval;
  inv_unit : sqlval;
  inv_category : sqlval;
  inv_image : option bytes
}.

(** [users]: every column but the id is TEXT NOT NULL. *)
Record user : Type := mkUser {
  usr_id : Z;
  usr_name : string;
  usr_username : string;
  usr_email : string;
  usr_password : string;
  usr_address : string
}.

(** [bills]: id, date TEXT, total_amount REAL. *)
Record bill : Type := mkBill {
  bill_id : Z;
  bill_date : sqlval;
  bill_total_amount : sqlval
}.

(** The database: the rows of each table in rowid order, and for the two
    tables the program inserts into, the AUTOINCREMENT counter SQLite keeps
    in [sqlite_sequence]. *)
Record Db : Type := mkDb {
  inventory : list product;
  inventory_seq : Z;
  users : list user;
  users_seq : Z;
  bills : list bill
}.

Definition empty_db : Db :=
  {| inventory := []; inventory_seq := 0; users := []; users_seq := 0; bills := [] |}.

(** ** Responses *)

Inductive json : Type :=
| JVal (v : jsval)
| JArr (items : list json)
| JObj (members : list (string * json)).

Inductive payload : Type :=
| Json (j : json)
| Text (s : string)
| Raw (b : bytes).

Record response : Type := mkResponse {
  status : nat;
  content_type : string;
  body : payload
}.

(** [res.status(c).json(j)], and [res.json(j)] at [c = 200].  Content types
    are kept without their character set. *)
Definition res_json (c : nat) (j : json) : response :=
  {| status := c; content_type := "application/json"; body := Json j |}.

(** [res.status(c).send(text)]. *)
Definition res_send (c : nat) (s : string) : response :=
  {| status := c; content_type := "text/html"; body := Text s |}.

(** What a handler leaves behind: a response, or a rejected promise that
    nothing catches, in which case no response is ever sent. *)
Inductive reply : Type :=
| Responded (r : response)
| Unhandled (reason : string).

(** The result handed to a callback: [err], or the statement's result. *)
Inductive outcome (A : Type) : Type :=
| Err (msg : string)
| Ok (a : A).
Arguments Err {A} msg.
Arguments Ok {A} a.

(** A statement on which the store reports [fault] calls back with that
    error and changes nothing; otherwise it calls back with its result. *)
Definition call {A : Type} (fault : option string) (a : A) : outcome A :=
  match fault with
  | Some msg => Err msg
  | None => Ok a
  end.

(** ** Requests *)

(** A multipart body is a sequence of parts, in the order busboy reports
    them; a file part arrives in chunks. *)
Inductive part : Type :=
| FieldPart (name : string) (val : string)
| FilePart (name : string) (chunks : list bytes).

(** The body of a request: multipart, or already parsed into [req.body] by
    the JSON and urlencoded parsers. *)
Inductive entity : Type :=
| Multipart (parts : list part)
| Parsed (fields : gmap string jsval).

(** [req.body] and [req.file] as the handler finds them.  [file = None]
    stands for both [null] and [undefined]: the handlers only test
    [req.file] for truth, and a Buffer is always true. *)
Record upload : Type := mkUpload {
  req_body : gmap string jsval;
  req_file : option bytes
}.

Definition on_part (acc : upload) (p : part) : upload :=
  match p with
  | FieldPart name val =>
      {| req_body := <[name := JStr val]> (req_body acc); req_file := req_file acc |}
  | FilePart _ chunks =>
      {| req_body := req_body acc; req_file := Some (List.concat chunks) |}
  end.

Definition handleFileUpload (e : entity) : upload :=
  match e with
  | Parsed fields => {| req_body := fields; req_file := None |}
  | Multipart parts =>
      fold_left on_part parts {| req_body := ∅; req_file := None |}
  end.

(** [req.body.k], [undefined] when the key is absent. *)
Definition field (b : gmap string jsval) (k : string) : jsval :=
  default JUndefined (b !! k).

(** The routes that reach the database, one constructor for each
    [app.get], [app.post], [app.put] and [app.delete] registration, with what
    the handler reads of the request. *)
Inductive request : Type :=
| GetImage (id : string)
| GetProducts (query : gmap string jsval)
| PostAddProduct (e : entity)
| GetInventory
| PostRegister (fields : gmap string jsval)
| PostLogin (fields : gmap string jsval)
| GetProduct (id : string)
| GetBills
| DeleteProduct (id : string)
| PutUpdateProduct (id : string) (e : entity).

(** What the surroundings decide while one request is served: the failure
    the store reports for the request's statement, if any, the failure it
    reports for the insert of a registration, and the salt bcryptjs draws. *)
Record environment : Type := mkEnvironment {
  env_fault : option string;
  env_fault_insert : option string;
  env_salt : string
}.

(** The decimal rendering of an id: [`${id}`] in a template literal, and
    what a client puts in the path for [:id]. *)
Definition show_id (id : Z) : string :=
  NilZero.string_of_int (Z.to_int id).

(** ** An instance of the library functions

    Concrete stand-ins for the functions the section below takes from
    SQLite, Node and bcryptjs, so that the handlers can be run on concrete
    requests.  They cover integer literals; the theorems of the section
    hold for every instance. *)

(** Integer literals as SQLite's numeric affinity reads them. *)
Definition decimal_to_num (s : string) : option Q :=
  match NilZero.int_of_string s with
  | Some d => Some (inject_Z (Z.of_int d))
  | None => None
  end.

(** An integer as SQLite's TEXT affinity writes it; a number that is not an
    integer is written as a fraction. *)
Definition num_to_decimal (n : Q) : string :=
  if Pos.eqb (Qden n) 1 then show_id (Qnum n)
  else show_id (Qnum n) ++ "/" ++ show_id (Z.pos (Qden n)).

(** The double nearest to an integer (ties to even); numbers that are not
    integers are left as they are. *)
Definition nearest_double (n : Q) : Q :=
  if Pos.eqb (Qden n) 1 then
    let z := Qnum n in
    let a := Z.abs z in
    if (a <? 2 ^ 53)%Z then n
    else
      let e := (Z.log2 a - 52)%Z in
      let q := (a / 2 ^ e)%Z in
      let r := (a mod 2 ^ e)%Z in
      let half := (2 ^ (e - 1))%Z in
      let q' := if (r <? half)%Z then q
                else if (half <? r)%Z then (q + 1)%Z
                else if Z.even q then q else (q + 1)%Z in
      inject_Z (Z.sgn z * (q' * 2 ^ e))
  else n.

Definition base64_alphabet : string :=
  "ABCDEFGHIJKLMNOPQRSTUVWXYZabcdefghijklmnopqrstuvwxyz0123456789+/".

Definition base64_digit (n : N) : ascii :=
  match String.get (N.to_nat n) base64_alphabet with
  | Some c => c
  | None => "="%char
  end.

(** RFC 4648 base64 with padding. *)
Fixpoint base64_encode (bs : bytes) : string :=
  match bs with
  | [] => ""
  | [a] =>
      let x := Byte.to_N a in
      String (base64_digit (x / 4))
        (String (base64_digit ((x mod 4) * 16)) "==")
  | [a; b] =>
      let x := Byte.to_N a in
      let y := Byte.to_N b in
      String (base64_digit (x / 4))
        (String (base64_digit ((x mod 4) * 16 + y / 16))
           (String (base64_digit ((y mod 16) * 4)) "="))
  | a :: b :: c :: rest =>
      let x := Byte.to_N a in
      let y := Byte.to_N b in
      let z := Byte.to_N c in
      String (base64_digit (x / 4))
        (String (base64_digit ((x mod 4) * 16 + y / 16))
           (String (base64_digit ((y mod 16) * 4 + z / 64))
              (String (base64_digit (z mod 64)) (base64_encode rest))))
  end.

Fixpoint string_rev (s : string) : string :=
  match s with
  | EmptyString => EmptyString
  | String c rest => string_rev rest ++ String c EmptyString
  end.

(** A keyed digest in the shape of a bcrypt hash: the salt, then a digest
    of the password; verification recomputes it under the stored salt
    (the first 8 characters here). *)
Definition toy_hash (password salt : string) : string :=
  salt ++ string_rev password.

Definition toy_compare (password stored : string) : bool :=
  String.eqb stored (toy_hash password (substring 0 8 stored)).

(** ** A small shop, and some requests *)

(** The first bytes of a PNG file. *)
Definition png_magic : bytes := [x89; x50; x4e; x47].

Definition rice : product :=
  {| inv_id := 1; inv_name := SText "Rice"; inv_price := SNum (inject_Z 50);
     inv_stock := SNum (inject_Z 100); inv_unit := SText "kg";
     inv_category := SText "grains"; inv_image := Some png_magic |}.

Definition pepper : product :=
  {| inv_id := 2; inv_name := SText "Pepper"; inv_price := SNum (inject_Z 12);
     inv_stock := SNum (inject_Z 30); inv_unit := SText "g";
     inv_category := SText "spices"; inv_image := None |}.

Definition alice : user :=
  {| usr_id := 1; usr_name := "Alice"; usr_username := "alice";
     usr_email := "alice@example.com";
     usr_password := toy_hash "wonderland" "$2a$10$.";
     usr_address := "1 Main Street" |}.

Definition shop : Db :=
  {| inventory := [rice; pepper]; inventory_seq := 2;
     users := [alice]; users_seq := 1; bills := [] |}.

(** A multipart create request: five fields and a file in two chunks. *)
Definition wheat_upload : entity :=
  Multipart [FieldPart "name" "Wheat"; FieldPart "price" "42";
             FieldPart "stock" "7"; FieldPart "unit" "kg";
             FieldPart "category" "grains";
             FilePart "image" [[x89; x50]; [x4e; x47]]].


(** A multipart create request whose stock is beyond 2^53. *)
Definition hoard_upload : entity :=
  Multipart [FieldPart "name" "Sand"; FieldPart "price" "1";
             FieldPart "stock" "9007199254740993"; FieldPart "unit" "grain";
             FieldPart "category" "bulk"].

(** A multipart update request with a file in two chunks. *)
Definition photo_update : entity :=
  Multipart [FieldPart "name" "Rice"; FieldPart "price" "55";
             FieldPart "stock" "80"; FieldPart "unit" "kg";
             FieldPart "category" "grains";
             FilePart "image" [[xff; xd8]; [xff; xe0]]].

(** A JSON update request without a file. *)
Definition basmati_update : entity :=
  Parsed (list_to_map [("name", JStr "Basmati"); ("price", JNum (inject_Z 60));
                       ("stock", JNum (inject_Z 90)); ("unit", JStr "kg");
                       ("category", JStr "grains")]).

Definition bob_registration : gmap string jsval :=
  list_to_map [("name", JStr "Bob"); ("username", JStr "bob");
               ("email", JStr "bob@example.com"); ("address", JStr "2 Side Road");
               ("password", JStr "builder")].

(** Same email as alice, another username. *)
Definition alias_registration : gmap string jsval :=
  list_to_map [("name", JStr "Al"); ("username", JStr "al");
               ("email", JStr "alice@example.com"); ("address", JStr "3 Back Lane");
               ("password", JStr "secret")].

Definition login_request (username password : string) : gmap string jsval :=
  list_to_map [("username", JStr username); ("password", JStr password)].

(** Nothing fails, and the salt is the given one. *)
Definition calm (salt : string) : environment :=
  {| env_fault := None; env_fault_insert := None; env_salt := salt |}.

(** A multipart body with two file parts and a repeated field. *)
Definition two_files : entity :=
  Multipart [FieldPart "name" "Oats"; FilePart "image" [[x01]; [x02]];
             FieldPart "name" "Barley"; FilePart "photo" [[x89; x50]; [x4e; x47]];
             FieldPart "unit" "kg"].

(** A multipart create request without a file and without a category. *)
Definition plain_upload : entity :=
  Multipart [FieldPart "name" "Tea"; FieldPart "price" "9";
             FieldPart "stock" "3"; FieldPart "unit" "box"].

(** A delete that succeeds, a delete the store fails, and a registration. *)
Definition busy_day : list (environment * request) :=
  [(calm "", DeleteProduct "2");
   ({| env_fault := Some "SQLITE_BUSY: database is locked";
       env_fault_insert := None; env_salt := "" |}, DeleteProduct "1");
   (calm "$2a$10$/", PostRegister bob_registration)].

(** A registration whose password is a number. *)
Definition numeric_password : gmap string jsval :=
  list_to_map [("name", JStr "Bob"); ("username", JStr "bob");
               ("email", JStr "bob@example.com"); ("address", JStr "2 Side Road");
               ("password", JNum (inject_Z 1234))].

Section Server.

(** ** What the program takes from its libraries *)

(** SQLite's conversion of a number to text (TEXT affinity applied to an
    INTEGER or REAL value) and of text to a number (numeric affinity:
    [Some n] when the text is a well-formed numeric literal). *)
Variable num_to_text : Q -> string.
Variable text_to_num : string -> option Q.

(** The double nearest to a number: the JavaScript number the driver makes
    of an INTEGER or REAL column value. *)
Variable to_double : Q -> Q.

(** [Buffer.prototype.toString('base64')]. *)
Variable base64 : bytes -> string.

(** bcryptjs: the hash of a password under a salt, and the verification of
    a password against a stored hash. *)
Variable bcrypt_hash : string -> string -> string.
Variable bcrypt_compare : string -> string -> bool.

(** ** Column affinities and comparisons *)

(** The driver's conversion of a column value of a result row. *)
Definition column_value (v : sqlval) : jsval :=
  match v with
  | SNull => JNull
  | SNum n => JNum (to_double n)
  | SText s => JStr s
  end.

(** TEXT affinity (name, unit, category and the users columns). *)
Definition text_affinity (v : sqlval) : sqlval :=
  match v with
  | SNum n => SText (num_to_text n)
  | _ => v
  end.

(** REAL and INTEGER affinity (price, stock) and the NUMERIC affinity a
    comparison with an integer column applies to the other operand. *)
Definition numeric_affinity (v : sqlval) : sqlval :=
  match v with
  | SText s =>
      match text_to_num s with
      | Some n => SNum n
      | None => v
      end
  | _ => v
  end.

(** [id = ?] for the INTEGER PRIMARY KEY and a bound string: the route
    parameter [req.params.id] is always a string. *)
Definition id_eq (id : Z) (param : string) : bool :=
  match numeric_affinity (SText param) with
  | SNum n => Qeq_bool (inject_Z id) n
  | _ => false
  end.

(** [col = ?] for a column of TEXT affinity: the parameter is given TEXT
    affinity, text compares byte for byte, NULL equals nothing. *)
Definition text_eq (col : sqlval) (param : sqlval) : bool :=
  match col, text_affinity param with
  | SText a, SText b => String.eqb a b
  | _, _ => false
  end.

(** ** Statements on [inventory] *)

(** SELECT ... FROM inventory WHERE id = ?   (through [db.get]: first row) *)
Definition select_product (rows : list product) (id : string) : option product :=
  List.find (fun r => id_eq (inv_id r) id) rows.

(** SELECT ... FROM inventory WHERE category = ? *)
Definition select_category (rows : list product) (category : sqlval) : list product :=
  List.filter (fun r => text_eq (inv_category r) category) rows.

(** The rowid AUTOINCREMENT gives the next row: one more than the largest
    the table has ever held. *)
Definition max_rowid (ids : list Z) : Z := fold_right Z.max 0%Z ids.

Definition next_rowid (seq : Z) (ids : list Z) : Z :=
  (Z.max seq (max_rowid ids) + 1)%Z.

(** INSERT INTO inventory (name, price, stock, unit, category, image)
    VALUES (?, ?, ?, ?, ?, ?): the new database and [this.lastID]. *)
Definition insert_product (db : Db) (name price stock unit category : jsval)
    (image : option bytes) : Z * Db :=
  let id := next_rowid (inventory_seq db) (map inv_id (inventory db)) in
  let row :=
    {| inv_id := id;
       inv_name := text_affinity (bind name);
       inv_price := numeric_affinity (bind price);
       inv_stock := numeric_affinity (bind stock);
       inv_unit := text_affinity (bind unit);
       inv_category := text_affinity (bind category);
       inv_image := image |} in
  (id,
   {| inventory := inventory db ++ [row];
      inventory_seq := id;
      users := users db;
      users_seq := users_seq db;
      bills := bills db |}).

Definition with_inventory (db : Db) (rows : list product) : Db :=
  {| inventory := rows;
     inventory_seq := inventory_seq db;
     users := users db;
     users_seq := users_seq db;
     bills := bills db |}.

(** DELETE FROM inventory WHERE id=? *)
Definition delete_product (db : Db) (id : string) : Db :=
  with_inventory db (List.filter (fun r => negb (id_eq (inv_id r) id)) (inventory db)).

(** UPDATE inventory SET name=?, price=?, stock=?, unit=?, category=?,
    image=? WHERE id=? *)
Definition update_product_image (db : Db) (name price stock unit category : jsval)
    (image : bytes) (id : string) : Db :=
  with_inventory db
    (map (fun r =>
            if id_eq (inv_id r) id then
              {| inv_id := inv_id r;
                 inv_name := text_affinity (bind name);
                 inv_price := numeric_affinity (bind price);
                 inv_stock := numeric_affinity (bind stock);
                 inv_unit := text_affinity (bind unit);
                 inv_category := text_affinity (bind category);
                 inv_image := Some image |}
            else r)
         (inventory db)).

(** UPDATE inventory SET name=?, price=?, stock=?, unit=?, category=?
    WHERE id=? *)
Definition update_product (db : Db) (name price stock unit category : jsval)
    (id : string) : Db :=
  with_inventory db
    (map (fun r =>
            if id_eq (inv_id r) id then
              {| inv_id := inv_id r;
                 inv_name := text_affinity (bind name);
                 inv_price := numeric_affinity (bind price);
                 inv_stock := numeric_affinity (bind stock);
                 inv_unit := text_affinity (bind unit);
                 inv_category := text_affinity (bind category);
                 inv_image := inv_image r |}
            else r)
         (inventory db)).

(** ** Statements on [users] *)

(** SELECT * FROM users WHERE username = ? OR email = ? *)
Definition select_user_conflict (rows : list user) (username email : jsval) : option user :=
  List.find (fun u => text_eq (SText (usr_username u)) (bind username)
                      || text_eq (SText (usr_email u)) (bind email)) rows.

(** SELECT * FROM users WHERE username = ? *)
Definition select_user (rows : list user) (username : jsval) : option user :=
  List.find (fun u => text_eq (SText (usr_username u)) (bind username)) rows.

(** INSERT INTO users (name, username, email, password, address)
    VALUES (?, ?, ?, ?, ?), with the table's NOT NULL and UNIQUE
    constraints. *)
Definition insert_user (db : Db) (name username email password address : jsval)
    : outcome Db :=
  match text_affinity (bind name), text_affinity (bind username),
        text_affinity (bind email), text_affinity (bind password),
        text_affinity (bind address) with
  | SText n, SText un, SText em, SText pw, SText ad =>
      if existsb (fun u => String.eqb (usr_username u) un) (users db) then
        Err "SQLITE_CONSTRAINT: UNIQUE constraint failed: users.username"
      else if existsb (fun u => String.eqb (usr_email u) em) (users db) then
        Err "SQLITE_CONSTRAINT: UNIQUE constraint failed: users.email"
      else
        let id := next_rowid (users_seq db) (map usr_id (users db)) in
        Ok {| inventory := inventory db;
              inventory_seq := inventory_seq db;
              users := users db ++
                [{| usr_id := id; usr_name := n; usr_username := un;
                    usr_email := em; usr_password := pw; usr_address := ad |}];
              users_seq := id;
              bills := bills db |}
  | _, _, _, _, _ => Err "SQLITE_CONSTRAINT: NOT NULL constraint failed"
  end.

(** A statement that can fail on its own (a constraint) and on a fault. *)
Definition run {A : Type} (fault : option string) (o : outcome A) : outcome A :=
  match fault with
  | Some msg => Err msg
  | None => o
  end.

(** ** bcryptjs entry points *)

(** [bcrypt.hash(password, 10, cb)]: a fresh salt is drawn for the call;
    anything but a string password calls back with an error. *)
Definition hash (password : jsval) (salt : string) : outcome string :=
  match password with
  | JStr p => Ok (bcrypt_hash p salt)
  | _ => Err ("Illegal arguments: " ++ typeof password ++ ", number")
  end.

(** [bcrypt.compare(password, stored)] as a promise: it rejects on anything
    but a string password. *)
Definition compare (password : jsval) (stored : string) : outcome bool :=
  match password with
  | JStr p => Ok (bcrypt_compare p stored)
  | _ => Err ("Illegal arguments: " ++ typeof password ++ ", string")
  end.

(** ** Response bodies *)

Definition str (s : string) : json := JVal (JStr s).
Definition num (z : Z) : json := JVal (JNum (inject_Z z)).

Definition error_body (msg : string) : json := JObj [("error", str msg)].
Definition message_body (msg : string) : json := JObj [("message", str msg)].
Definition login_body (success : bool) (msg : string) : json :=
  JObj [("success", JVal (JBool success)); ("message", str msg)].

(** A row of [inventory] as [/products] and [/product/:id] send it: the
    image as base64 text when there is one, [null] otherwise. *)
Definition product_base64 (r : product) : json :=
  JObj [("id", num (inv_id r));
        ("name", JVal (column_value (inv_name r)));
        ("price", JVal (column_value (inv_price r)));
        ("stock", JVal (column_value (inv_stock r)));
        ("unit", JVal (column_value (inv_unit r)));
        ("category", JVal (column_value (inv_category r)));
        ("image", match inv_image r with
                  | Some b => str (base64 b)
                  | None => JVal JNull
                  end)].

(** A row as [/getInventory] sends it: the image as a URL. *)
Definition product_url (r : product) : json :=
  JObj [("id", num (inv_id r));
        ("name", JVal (column_value (inv_name r)));
        ("price", JVal (column_value (inv_price r)));
        ("stock", JVal (column_value (inv_stock r)));
        ("unit", JVal (column_value (inv_unit r)));
        ("category", JVal (column_value (inv_category r)));
        ("image", match inv_image r with
                  | Some _ => str ("/image/" ++ show_id (inv_id r))
                  | None => JVal JNull
                  end)].

Definition bill_json (b : bill) : json :=
  JObj [("id", num (bill_id b));
        ("date", JVal (column_value (bill_date b)));
        ("total_amount", JVal (column_value (bill_total_amount b)))].

(** ** Route handlers *)

(** GET /image/:id *)
Definition get_image (fault : option string) (db : Db) (id : string) : response :=
  match call fault (select_product (inventory db) id) with
  | Err _ => res_send 404 "Image not found"
  | Ok None => res_send 404 "Image not found"
  | Ok (Some row) =>
      match inv_image row with
      | None => res_send 404 "Image not found"
      | Some image =>
          {| status := 200; content_type := "image/jpeg"; body := Raw image |}
      end
  end.

(** GET /products, with the parsed query string [req.query]. *)
Definition get_products (fault : option string) (db : Db)
    (query : gmap string jsval) : response :=
  let category := field query "category" in
  let selected :=
    if truthy category
    then select_category (inventory db) (bind category)
    else inventory db in
  match call fault selected with
  | Err msg => res_json 500 (error_body msg)
  | Ok rows => res_json 200 (JArr (map product_base64 rows))
  end.

(** POST /addProduct.  The body of the response is the object handed to
    [res.json]; its members that are [undefined] are not serialised. *)
Definition addProduct (fault : option string) (db : Db) (e : entity) : response * Db :=
  let req := handleFileUpload e in
  let name := field (req_body req) "name" in
  let price := field (req_body req) "price" in
  let stock := field (req_body req) "stock" in
  let unit := field (req_body req) "unit" in
  let category := field (req_body req) "category" in
  let image := req_file req in
  match call fault (insert_product db name price stock unit category image) with
  | Err msg => (res_json 500 (error_body msg), db)
  | Ok (lastID, db') =>
      (res_json 200
         (JObj [("message", str "Product added!");
                ("product",
                 JObj [("id", num lastID);
                       ("name", JVal name);
                       ("price", JVal price);
                       ("stock", JVal stock);
                       ("unit", JVal unit);
                       ("category", JVal category);
                       ("imageUrl",
                        match image with
                        | Some _ => str ("/image/" ++ show_id lastID)
                        | None => JVal JNull
                        end)])]),
       db')
  end.

(** GET /getInventory *)
Definition getInventory (fault : option string) (db : Db) : response :=
  match call fault (inventory db) with
  | Err msg => res_json 500 (error_body msg)
  | Ok rows => res_json 200 (JArr (map product_url rows))
  end.

(** POST /register.  [fault_get] and [fault_run] are the faults of the two
    statements, [salt] the salt bcryptjs draws for this call. *)
Definition register (fault_get fault_run : option string) (salt : string)
    (db : Db) (fields : gmap string jsval) : response * Db :=
  let name := field fields "name" in
  let username := field fields "username" in
  let email := field fields "email" in
  let address := field fields "address" in
  let password := field fields "password" in
  if negb (truthy name) || negb (truthy username) || negb (truthy email)
     || negb (truthy address) || negb (truthy password)
  then (res_json 400 (message_body "All fields are required"), db)
  else
    match call fault_get (select_user_conflict (users db) username email) with
    | Err _ => (res_json 500 (message_body "Database error"), db)
    | Ok (Some _) => (res_json 400 (message_body "Username or Email already exists"), db)
    | Ok None =>
        match hash password salt with
        | Err _ => (res_json 500 (message_body "Error hashing password"), db)
        | Ok hashedPassword =>
            match run fault_run
                    (insert_user db name username email (JStr hashedPassword) address) with
            | Err _ => (res_json 500 (message_body "Error inserting user"), db)
            | Ok db' => (res_json 201 (message_body "User registered successfully"), db')
            end
        end
    end.

(** POST /login *)
Definition login (fault : option string) (db : Db) (fields : gmap string jsval) : reply :=
  let username := field fields "username" in
  let password := field fields "password" in
  match call fault (select_user (users db) username) with
  | Err _ => Responded (res_json 500 (login_body false "Database error"))
  | Ok None => Responded (res_json 401 (login_body false "Invalid Username!"))
  | Ok (Some user) =>
      match compare password (usr_password user) with
      | Err reason => Unhandled reason
      | Ok false => Responded (res_json 401 (login_body false "Invalid Password!"))
      | Ok true => Responded (res_json 200 (login_body true "Login successful!"))
      end
  end.

(** GET /product/:id *)
Definition get_product (fault : option string) (db : Db) (id : string) : response :=
  match call fault (select_product (inventory db) id) with
  | Err msg => res_json 500 (error_body msg)
  | Ok None => res_json 404 (error_body "Product not found")
  | Ok (Some product) => res_json 200 (product_base64 product)
  end.

(** GET /getBills *)
Definition getBills (fault : option string) (db : Db) : response :=
  match call fault (bills db) with
  | Err msg => res_json 500 (error_body msg)
  | Ok rows => res_json 200 (JArr (map bill_json rows))
  end.

(** DELETE /deleteProduct/:id *)
Definition deleteProduct (fault : option string) (db : Db) (id : string) : response * Db :=
  match call fault (delete_product db id) with
  | Err msg => (res_json 500 (error_body msg), db)
  | Ok db' => (res_json 200 (message_body "Deleted!"), db')
  end.

(** PUT /updateProduct/:id *)
Definition updateProduct (fault : option string) (db : Db) (id : string) (e : entity)
    : response * Db :=
  let req := handleFileUpload e in
  let name := field (req_body req) "name" in
  let price := field (req_body req) "price" in
  let stock := field (req_body req) "stock" in
  let unit := field (req_body req) "unit" in
  let category := field (req_body req) "category" in
  match req_file req with
  | Some file =>
      match call fault (update_product_image db name price stock unit category file id) with
      | Err msg => (res_json 500 (error_body msg), db)
      | Ok db' => (res_json 200 (message_body "Updated!"), db')
      end
  | None =>
      match call fault (update_product db name price stock unit category id) with
      | Err msg => (res_json 500 (error_body msg), db)
      | Ok db' => (res_json 200 (message_body "Updated!"), db')
      end
  end.

(** ** Notions the properties are stated with *)

(** SQLite reads the decimal rendering of an integer as that integer. *)
Definition reads_decimal_ids : Prop :=
  forall z : Z, exists n : Q, text_to_num (show_id z) = Some n /\ Qeq n (inject_Z z).


(** The text a TEXT column stores for a value, if it stores one. *)
Definition as_text (v : jsval) : option string :=
  match text_affinity (bind v) with
  | SText s => Some s
  | _ => None
  end.

(** A field that is missing or empty. *)
Definition blank (v : jsval) : Prop := v = JUndefined \/ v = JStr "".


(** The five registration fields all hold a value JavaScript treats as
    true. *)
Definition all_present (fields : gmap string jsval) : Prop :=
  truthy (field fields "name") = true /\ truthy (field fields "username") = true
  /\ truthy (field fields "email") = true /\ truthy (field fields "address") = true
  /\ truthy (field fields "password") = true.

(** The five registration fields are present, the password is the string
    [password], and the other four are stored as the given texts. *)
Definition offered (fields : gmap string jsval)
    (name username email address password : string) : Prop :=
  all_present fields
  /\ as_text (field fields "name") = Some name
  /\ as_text (field fields "username") = Some username
  /\ as_text (field fields "email") = Some email
  /\ as_text (field fields "address") = Some address
  /\ field fields "password" = JStr password.

(** The database after a registration that succeeds. *)
Definition with_user (db : Db) (name username email password address : string) : Db :=
  {| inventory := inventory db;
     inventory_seq := inventory_seq db;
     users := users db ++
       [{| usr_id := next_rowid (users_seq db) (map usr_id (users db));
           usr_name := name;
           usr_username := username;
           usr_email := email;
           usr_password := password;
           usr_address := address |}];
     users_seq := next_rowid (users_seq db) (map usr_id (users db));
     bills := bills db |}.

(** The PRIMARY KEY constraint of the inventory table. *)
Definition ids_unique (rows : list product) : Prop := NoDup (map inv_id rows).

(** The UNIQUE constraints of the users table. *)
Definition users_unique (rows : list user) : Prop :=
  NoDup (map usr_username rows) /\ NoDup (map usr_email rows).

(** Part of a multipart body that is a plain field. *)
Definition is_field_part (p : part) : bool :=
  match p with
  | FieldPart _ _ => true
  | FilePart _ _ => false
  end.

(** The value of the last field part named [k], if the body has one. *)
Fixpoint last_field (k : string) (parts : list part) : option string :=
  match parts with
  | [] => None
  | p :: rest =>
      match last_field k rest with
      | Some v => Some v
      | None =>
          match p with
          | FieldPart name val => if String.eqb name k then Some val else None
          | FilePart _ _ => None
          end
      end
  end.

(** The content of the last file part, if the body has one. *)
Fixpoint last_file (parts : list part) : option bytes :=
  match parts with
  | [] => None
  | p :: rest =>
      match last_file rest with
      | Some b => Some b
      | None =>
          match p with
          | FieldPart _ _ => None
          | FilePart _ chunks => Some (List.concat chunks)
          end
      end
  end.

(** What a request sends for the field [k], read off the request itself:
    the member of a parsed body, or the last multipart field of that name. *)
Definition sent (e : entity) (k : string) : jsval :=
  match e with
  | Parsed fields =>
      match fields !! k with
      | Some v => v
      | None => JUndefined
      end
  | Multipart parts =>
      match last_field k parts with
      | Some v => JStr v
      | None => JUndefined
      end
  end.

(** The file a request uploads, read off the request itself: none for a
    parsed body, the last file part of a multipart body. *)
Definition uploaded (e : entity) : option bytes :=
  match e with
  | Parsed _ => None
  | Multipart parts => last_file parts
  end.

(** The router: each request goes to its handler; the handlers that only
    read leave the database as it is. *)
Definition handle (env : environment) (db : Db) (req : request) : reply * Db :=
  match req with
  | GetImage id => (Responded (get_image (env_fault env) db id), db)
  | GetProducts query => (Responded (get_products (env_fault env) db query), db)
  | PostAddProduct e =>
      (Responded (fst (addProduct (env_fault env) db e)),
       snd (addProduct (env_fault env) db e))
  | GetInventory => (Responded (getInventory (env_fault env) db), db)
  | PostRegister fields =>
      (Responded (fst (register (env_fault env) (env_fault_insert env)
                         (env_salt env) db fields)),
       snd (register (env_fault env) (env_fault_insert env) (env_salt env) db fields))
  | PostLogin fields => (login (env_fault env) db fields, db)
  | GetProduct id => (Responded (get_product (env_fault env) db id), db)
  | GetBills => (Responded (getBills (env_fault env) db), db)
  | DeleteProduct id =>
      (Responded (fst (deleteProduct (env_fault env) db id)),
       snd (deleteProduct (env_fault env) db id))
  | PutUpdateProduct id e =>
      (Responded (fst (updateProduct (env_fault env) db id e)),
       snd (updateProduct (env_fault env) db id e))
  end.

(** The database after a sequence of requests, served one after the other. *)
Definition serve (db : Db) (trace : list (environment * request)) : Db :=
  fold_left (fun d step => snd (handle (fst step) d (snd step))) trace db.

(** What the schema promises of a database: ids are unique and none exceeds
    the AUTOINCREMENT counter, usernames and emails are unique. *)
Definition consistent (db : Db) : Prop :=
  ids_unique (inventory db)
  /\ Forall (fun r => (inv_id r <= inventory_seq db)%Z) (inventory db)
  /\ users_unique (users db).

(** The member [k] of a JSON object. *)
Definition member (k : string) (j : json) : option json :=
  match j with
  | JObj members =>
      match List.find (fun m => String.eqb (fst m) k) members with
      | Some m => Some (snd m)
      | None => None
      end
  | _ => None
  end.

(** The JSON a response carries, if it carries JSON. *)
Definition json_body (r : response) : option json :=
  match body r with
  | Json j => Some j
  | _ => None
  end.

(** A reply that reports success: status 200 or 201. *)
Definition succeeded (out : reply) : bool :=
  match out with
  | Responded r => Nat.eqb (status r) 200 || Nat.eqb (status r) 201
  | Unhandled _ => false
  end.

(** ** The store's statements: basic facts *)

Lemma find_filter_negb {A : Type} (f : A -> bool) (l : list A) :
  List.find f (List.filter (fun x => negb (f x)) l) = None.
Proof.
  induction l as [|x l IH]; simpl; [reflexivity|].
  destruct (f x) eqn:Hx; simpl; [exact IH|].
  rewrite Hx. exact IH.
Qed.

Lemma filter_negb_id {A : Type} (f : A -> bool) (l : list A) :
  List.find f l = None -> List.filter (fun x => negb (f x)) l = l.
Proof.
  induction l as [|x l IH]; simpl; [reflexivity|].
  destruct (f x) eqn:Hx; simpl; [discriminate|].
  intros H. f_equal. exact (IH H).
Qed.

Lemma select_after_delete (db : Db) (id : string) :
  select_product (inventory (delete_product db id)) id = None.
Proof. unfold select_product, delete_product. simpl. apply find_filter_negb. Qed.

Lemma delete_absent (db : Db) (id : string) :
  select_product (inventory db) id = None ->
  inventory (delete_product db id) = inventory db.
Proof. intros H. unfold delete_product. simpl. apply filter_negb_id. exact H. Qed.

(** ** Deleting a product *)

(** C4: when the store reports no failure, DELETE /deleteProduct/:id answers
    200 with the message "Deleted!" whatever the id, also when no row has
    that id (the table is then left as it was), and a GET /product/:id for
    the same id on the resulting database answers 404. *)
Theorem delete_then_get_is_404 (db : Db) (id : string) :
  fst (deleteProduct None db id) = res_json 200 (message_body "Deleted!")
  /\ get_product None (snd (deleteProduct None db id)) id
     = res_json 404 (error_body "Product not found")
  /\ (select_product (inventory db) id = None ->
      status (fst (deleteProduct None db id)) = 200
      /\ inventory (snd (deleteProduct None db id)) = inventory db).
Proof.
  unfold deleteProduct, get_product, call. cbn [fst snd].
  rewrite select_after_delete.
  repeat split. apply delete_absent. assumption.
Qed.

(** ** Listing products *)

Lemma text_eq_text (col : sqlval) (x : string) :
  text_eq col (SText x) = bool_decide (col = SText x).
Proof.
  unfold text_eq. simpl. destruct col as [|n|c]; try reflexivity.
  destruct (String.eqb_spec c x) as [->|Hne].
  - symmetry. apply bool_decide_eq_true. reflexivity.
  - symmetry. apply bool_decide_eq_false. congruence.
Qed.

Lemma select_category_text (rows : list product) (x : string) :
  select_category rows (SText x)
  = List.filter (fun r => bool_decide (inv_category r = SText x)) rows.
Proof.
  unfold select_category. apply List.filter_ext. intros r. apply text_eq_text.
Qed.

Lemma truthy_text (x : string) : x <> "" -> truthy (JStr x) = true.
Proof.
  intros Hx. simpl. destruct (String.eqb_spec x "") as [->|_]; [congruence|reflexivity].
Qed.

(** C3 (amended): when the store reports no failure, GET /products with a
    non-empty category parameter X answers 200 with exactly the rows whose
    stored category is the text X (same characters, same case), in table
    order, and with the parameter omitted it answers with all rows. *)
Theorem products_by_category (db : Db) (query : gmap string jsval) :
  (forall x : string, x <> "" -> query !! "category" = Some (JStr x) ->
     get_products None db query
     = res_json 200
         (JArr (map product_base64
                  (List.filter (fun r => bool_decide (inv_category r = SText x))
                     (inventory db)))))
  /\ (query !! "category" = None ->
      get_products None db query
      = res_json 200 (JArr (map product_base64 (inventory db)))).
Proof.
  split.
  - intros x Hx Hq. unfold get_products, field. rewrite Hq. cbn [default from_option id].
    rewrite (truthy_text x Hx). cbn [bind call].
    rewrite select_category_text. reflexivity.
  - intros Hq. unfold get_products, field. rewrite Hq. reflexivity.
Qed.

(** C10: a category parameter that is present and empty is the same request
    as one without the parameter, whatever the store does: no filter is
    applied, and when the store reports no failure all rows are returned. *)
Theorem empty_category_is_no_filter (fault : option string) (db : Db)
    (query : gmap string jsval) :
  get_products fault db (<["category" := JStr ""]> query)
  = get_products fault db (delete "category" query)
  /\ get_products None db (<["category" := JStr ""]> query)
     = res_json 200 (JArr (map product_base64 (inventory db))).
Proof.
  unfold get_products, field.
  rewrite lookup_insert_eq, lookup_delete_eq. split; reflexivity.
Qed.

(** ** Serving an image *)

(** C7 (amended): GET /image/:id answers 404 exactly when the store reports
    a failure, no row is selected for the id, or the selected row's image is
    null; when the store reports no failure and the row has an image it
    answers 200 with content type image/jpeg and the stored bytes as the
    body. *)
Theorem image_404_iff_failure_or_absent (fault : option string) (db : Db) (id : string) :
  (status (get_image fault db id) = 404 <->
     (exists msg, fault = Some msg)
     \/ select_product (inventory db) id = None
     \/ exists row, select_product (inventory db) id = Some row
                    /\ inv_image row = None)
  /\ (forall row image,
        fault = None ->
        select_product (inventory db) id = Some row ->
        inv_image row = Some image ->
        get_image fault db id
        = {| status := 200; content_type := "image/jpeg"; body := Raw image |}).
Proof.
  unfold get_image. destruct fault as [msg|]; cbn [call].
  { split; [|intros ? ? H; discriminate].
    split; [intros _; left; exists msg|]; reflexivity. }
  destruct (select_product (inventory db) id) as [row|] eqn:Hsel.
  - destruct (inv_image row) as [image|] eqn:Himg; split.
    + split; [discriminate|].
      intros [(msg & H)|[H|(row' & H & Hnone)]]; try discriminate.
      injection H as <-. congruence.
    + intros row' image' _ H Hi. injection H as <-. congruence.
    + split; [|reflexivity]. intros _. right. right. exists row.
      split; [reflexivity|assumption].
    + intros row' image' _ H Hi. injection H as <-. congruence.
  - split; [|intros ? ? _ H; discriminate].
    split; [intros _; right; left|]; reflexivity.
Qed.

(** ** The upload middleware *)

Lemma upload_parsed (fields : gmap string jsval) :
  handleFileUpload (Parsed fields) = {| req_body := fields; req_file := None |}.
Proof. reflexivity. Qed.

Lemma fold_fields_keep_file (parts : list part) (acc : upload) :
  forallb is_field_part parts = true ->
  req_file (fold_left on_part parts acc) = req_file acc.
Proof.
  revert acc. induction parts as [|p parts IH]; intros acc H; [reflexivity|].
  simpl in H. apply andb_true_iff in H as [Hp Hrest].
  simpl. rewrite (IH _ Hrest). destruct p; [reflexivity|discriminate].
Qed.

(** Without a file part [req.file] stays null. *)
Lemma upload_without_file (parts : list part) :
  forallb is_field_part parts = true ->
  req_file (handleFileUpload (Multipart parts)) = None.
Proof. intros H. simpl. rewrite (fold_fields_keep_file parts _ H). reflexivity. Qed.

(** X1: of the file parts of a multipart body only the last one counts:
    [req.file] holds its chunks joined in order, and the file parts before it
    are dropped. *)
Lemma upload_last_file (before after : list part) (name : string) (chunks : list bytes) :
  forallb is_field_part after = true ->
  req_file (handleFileUpload (Multipart (before ++ FilePart name chunks :: after)))
  = Some (List.concat chunks).
Proof.
  intros H. simpl. rewrite fold_left_app. simpl.
  rewrite (fold_fields_keep_file after _ H). reflexivity.
Qed.

Lemma fold_body_lookup (parts : list part) (acc : upload) (k : string) :
  req_body (fold_left on_part parts acc) !! k
  = match last_field k parts with
    | Some v => Some (JStr v)
    | None => req_body acc !! k
    end.
Proof.
  revert acc. induction parts as [|p parts IH]; intros acc; [reflexivity|].
  cbn [fold_left last_field]. rewrite IH.
  destruct (last_field k parts) as [v|]; [reflexivity|].
  destruct p as [name val|name chunks]; cbn [on_part req_body]; [|reflexivity].
  destruct (String.eqb_spec name k) as [->|Hne].
  - apply lookup_insert_eq.
  - apply lookup_insert_ne. exact Hne.
Qed.

Lemma fold_file_lookup (parts : list part) (acc : upload) :
  req_file (fold_left on_part parts acc)
  = match last_file parts with
    | Some b => Some b
    | None => req_file acc
    end.
Proof.
  revert acc. induction parts as [|p parts IH]; intros acc; [reflexivity|].
  cbn [fold_left last_file]. rewrite IH.
  destruct (last_file parts); [reflexivity|]. destruct p; reflexivity.
Qed.

(** The middleware hands the handler what the request sends. *)
Lemma upload_sends (e : entity) (k : string) :
  field (req_body (handleFileUpload e)) k = sent e k.
Proof.
  destruct e as [parts|fields]; unfold field; cbn [handleFileUpload sent req_body].
  - rewrite fold_body_lookup. destruct (last_field k parts); [reflexivity|].
    cbn [req_body]. rewrite lookup_empty. reflexivity.
  - destruct (fields !! k); reflexivity.
Qed.

Lemma upload_uploads (e : entity) :
  req_file (handleFileUpload e) = uploaded e.
Proof.
  destruct e as [parts|fields]; cbn [handleFileUpload uploaded req_file];
    [|reflexivity].
  rewrite fold_file_lookup. destruct (last_file parts); reflexivity.
Qed.

(** ** Updating a product *)

Lemma find_map_same_key {A : Type} (f : A -> bool) (g : A -> A) (l : list A) :
  (forall x, f (g x) = f x) ->
  List.find f (map g l) = option_map g (List.find f l).
Proof.
  intros Hg. induction l as [|x l IH]; simpl; [reflexivity|].
  rewrite Hg. destruct (f x); [reflexivity|exact IH].
Qed.

Lemma update_keeps_ids (db : Db) (id : string) (e : entity) :
  map inv_id (inventory (snd (updateProduct None db id e))) = map inv_id (inventory db).
Proof.
  unfold updateProduct.
  destruct (req_file (handleFileUpload e)); cbn [call snd];
    unfold update_product_image, update_product; cbn [inventory with_inventory];
    rewrite map_map; apply map_ext; intros r;
    destruct (id_eq (inv_id r) id); reflexivity.
Qed.

(** Rows the id does not select are left as they were. *)
Lemma update_frame (db : Db) (id : string) (e : entity) (r : product) :
  In r (inventory db) -> id_eq (inv_id r) id = false ->
  In r (inventory (snd (updateProduct None db id e))).
Proof.
  intros Hin Hother. unfold updateProduct.
  destruct (req_file (handleFileUpload e)); cbn [call snd];
    unfold update_product_image, update_product; cbn [inventory with_inventory];
    apply in_map_iff; exists r; rewrite Hother; (split; [reflexivity|assumption]).
Qed.

(** C2: when the store reports no failure, PUT /updateProduct/:id on an
    existing product answers 200 and leaves the product with the name,
    price, stock, unit and category the request sends (as their columns
    store them); the stored image is unchanged when the request uploads no
    file, and is the uploaded bytes when it uploads one.  What the request
    sends and uploads is read off the request, JSON or multipart. *)
Theorem update_replaces_fields (db : Db) (id : string) (e : entity) (row : product) :
  select_product (inventory db) id = Some row ->
  let after := snd (updateProduct None db id e) in
  fst (updateProduct None db id e) = res_json 200 (message_body "Updated!")
  /\ exists row',
      select_product (inventory after) id = Some row'
      /\ inv_id row' = inv_id row
      /\ inv_name row' = text_affinity (bind (sent e "name"))
      /\ inv_price row' = numeric_affinity (bind (sent e "price"))
      /\ inv_stock row' = numeric_affinity (bind (sent e "stock"))
      /\ inv_unit row' = text_affinity (bind (sent e "unit"))
      /\ inv_category row' = text_affinity (bind (sent e "category"))
      /\ (uploaded e = None -> inv_image row' = inv_image row)
      /\ (forall file, uploaded e = Some file -> inv_image row' = Some file).
Proof.
  intros Hsel after. subst after. unfold updateProduct.
  rewrite !upload_sends, upload_uploads.
  assert (Hfound : id_eq (inv_id row) id = true).
  { unfold select_product in Hsel. exact (proj2 (List.find_some _ _ Hsel)). }
  destruct (uploaded e) as [file|] eqn:Hfile; unfold call; cbn [fst snd];
    (split; [reflexivity|]).
  - unfold update_product_image, select_product. cbn [inventory with_inventory].
    rewrite find_map_same_key.
    + unfold select_product in Hsel. rewrite Hsel. cbn [option_map]. rewrite Hfound.
      eexists. split; [reflexivity|]. cbn.
      repeat split; try discriminate. intros f Hf. congruence.
    + intros x. destruct (id_eq (inv_id x) id) eqn:Hx; cbn; rewrite Hx; reflexivity.
  - unfold update_product, select_product. cbn [inventory with_inventory].
    rewrite find_map_same_key.
    + unfold select_product in Hsel. rewrite Hsel. cbn [option_map]. rewrite Hfound.
      eexists. split; [reflexivity|]. cbn.
      repeat split; discriminate.
    + intros x. destruct (id_eq (inv_id x) id) eqn:Hx; cbn; rewrite Hx; reflexivity.
Qed.

(** ** Creating a product *)

Lemma id_eq_show (a b : Z) :
  reads_decimal_ids -> id_eq a (show_id b) = bool_decide (a = b).
Proof.
  intros Hread. unfold id_eq, numeric_affinity.
  destruct (Hread b) as (n & -> & Hn).
  destruct (decide (a = b)) as [->|Hne].
  - rewrite bool_decide_eq_true_2 by reflexivity.
    apply Qeq_bool_iff. symmetry. exact Hn.
  - rewrite bool_decide_eq_false_2 by assumption.
    apply not_true_is_false. intros H. apply Qeq_bool_iff in H.
    rewrite Hn in H. apply Hne. unfold Qeq in H. simpl in H. lia.
Qed.

Lemma max_rowid_bound (ids : list Z) (x : Z) :
  In x ids -> (x <= max_rowid ids)%Z.
Proof.
  induction ids as [|y ids IH]; simpl; [intros []|].
  intros [->|H]; [lia|]. specialize (IH H). lia.
Qed.

Lemma next_rowid_fresh (seq : Z) (rows : list product) (r : product) :
  In r rows -> inv_id r <> next_rowid seq (map inv_id rows).
Proof.
  intros H. apply (in_map inv_id) in H. apply max_rowid_bound in H.
  unfold next_rowid. lia.
Qed.

Lemma find_app_last {A : Type} (f : A -> bool) (l : list A) (x : A) :
  (forall y, In y l -> f y = false) -> f x = true ->
  List.find f (l ++ [x]) = Some x.
Proof.
  intros Hl Hx. induction l as [|y l IH]; simpl.
  - rewrite Hx. reflexivity.
  - rewrite (Hl y) by (left; reflexivity).
    apply IH. intros z Hz. apply Hl. right. exact Hz.
Qed.

Lemma insert_keeps_ids_unique (db : Db) (name price stock unit category : jsval)
    (image : option bytes) :
  ids_unique (inventory db) ->
  ids_unique (inventory (snd (insert_product db name price stock unit category image))).
Proof.
  unfold ids_unique. intros Huniq. cbn [insert_product snd inventory].
  rewrite map_app. cbn [map inv_id].
  apply NoDup_app. split; [assumption|]. split; [|apply NoDup_singleton].
  intros x Hx Hnew. apply list_elem_of_singleton in Hnew. subst x.
  apply list_elem_of_In, max_rowid_bound in Hx. unfold next_rowid in Hx. lia.
Qed.

(** The row POST /addProduct inserts is the one its id selects. *)
Lemma select_inserted (db : Db) (name price stock unit category : jsval)
    (image : option bytes) :
  reads_decimal_ids ->
  let created := insert_product db name price stock unit category image in
  select_product (inventory (snd created)) (show_id (fst created))
  = Some {| inv_id := fst created;
            inv_name := text_affinity (bind name);
            inv_price := numeric_affinity (bind price);
            inv_stock := numeric_affinity (bind stock);
            inv_unit := text_affinity (bind unit);
            inv_category := text_affinity (bind category);
            inv_image := image |}.
Proof.
  intros Hread. cbn. unfold select_product. apply find_app_last.
  - intros r Hr. cbn. rewrite (id_eq_show _ _ Hread).
    apply bool_decide_eq_false_2. apply next_rowid_fresh. exact Hr.
  - cbn. rewrite (id_eq_show _ _ Hread). apply bool_decide_eq_true_2. reflexivity.
Qed.



(** ** Registration *)

Lemma blank_falsy (v : jsval) : blank v -> truthy v = false.
Proof. intros [->| ->]; reflexivity. Qed.

Lemma existsb_none {A : Type} (f : A -> bool) (l : list A) :
  (forall x, In x l -> f x = false) -> existsb f l = false.
Proof.
  intros H. apply not_true_is_false. intros Hex.
  apply existsb_exists in Hex as (x & Hin & Hx).
  rewrite (H x Hin) in Hx. discriminate.
Qed.







Lemma as_text_stored (v : jsval) (s : string) :
  as_text v = Some s -> text_affinity (bind v) = SText s.
Proof.
  unfold as_text. destruct (text_affinity (bind v)); try discriminate.
  intros [= ->]. reflexivity.
Qed.

Lemma conflict_found_stored (rows : list user) (username email : jsval) (u : user) :
  In u rows ->
  as_text username = Some (usr_username u) \/ as_text email = Some (usr_email u) ->
  exists v, select_user_conflict rows username email = Some v.
Proof.
  intros Hin Hu. unfold select_user_conflict.
  destruct (List.find _ rows) as [v|] eqn:Hfind; [exists v; reflexivity|].
  exfalso. pose proof (List.find_none _ _ Hfind u Hin) as Hno. cbn beta in Hno.
  apply orb_false_iff in Hno as [H1 H2]. unfold text_eq in H1, H2.
  destruct Hu as [Hu|Hu]; apply as_text_stored in Hu.
  - rewrite Hu, String.eqb_refl in H1. discriminate.
  - rewrite Hu, String.eqb_refl in H2. discriminate.
Qed.

Lemma conflict_free_stored (rows : list user) (username email : jsval)
    (un em : string) :
  as_text username = Some un -> as_text email = Some em ->
  (forall u, In u rows -> usr_username u <> un /\ usr_email u <> em) ->
  select_user_conflict rows username email = None.
Proof.
  intros Hun Hem Hfree. unfold select_user_conflict.
  destruct (List.find _ rows) as [v|] eqn:Hfind; [|reflexivity].
  exfalso. apply List.find_some in Hfind as [Hin Hv]. unfold text_eq in Hv.
  rewrite (as_text_stored _ _ Hun), (as_text_stored _ _ Hem) in Hv.
  destruct (Hfree v Hin) as [H1 H2].
  apply String.eqb_neq in H1. apply String.eqb_neq in H2.
  rewrite H1, H2 in Hv. discriminate.
Qed.

Lemma insert_user_stored (db : Db) (name username email address : jsval)
    (n un em ad pw : string) :
  as_text name = Some n -> as_text username = Some un ->
  as_text email = Some em -> as_text address = Some ad ->
  (forall u, In u (users db) -> usr_username u <> un /\ usr_email u <> em) ->
  insert_user db name username email (JStr pw) address
  = Ok (with_user db n un em pw ad).
Proof.
  intros Hn Hun Hem Had Hfree. unfold insert_user.
  rewrite (as_text_stored _ _ Hn), (as_text_stored _ _ Hun),
    (as_text_stored _ _ Hem), (as_text_stored _ _ Had).
  cbn [bind text_affinity].
  rewrite !existsb_none; [reflexivity| |].
  - intros u Hin. apply String.eqb_neq. apply (Hfree u Hin).
  - intros u Hin. apply String.eqb_neq. apply (Hfree u Hin).
Qed.

Lemma all_present_guard (fields : gmap string jsval) :
  all_present fields ->
  negb (truthy (field fields "name")) || negb (truthy (field fields "username"))
  || negb (truthy (field fields "email")) || negb (truthy (field fields "address"))
  || negb (truthy (field fields "password")) = false.
Proof. intros (-> & -> & -> & -> & ->). reflexivity. Qed.

(** C5 (amended): POST /register answers 400 "All fields are required" when
    one of name, username, email, address, password is missing or empty,
    whatever the store does.  When the lookup reports no failure and some
    user row has the given username or the given email (either one
    suffices), it answers 400 and adds nothing, with "Username or Email
    already exists" when the five fields are present.  It answers 201, with
    the user row added, when the five fields are present (each a value
    JavaScript treats as true), the password is a string, no row has the
    username or the email, and the store reports no failure. *)
Theorem register_checks (fault_get fault_run : option string) (salt : string)
    (db : Db) (fields : gmap string jsval) :
  (blank (field fields "name") \/ blank (field fields "username")
   \/ blank (field fields "email") \/ blank (field fields "address")
   \/ blank (field fields "password") ->
   register fault_get fault_run salt db fields
   = (res_json 400 (message_body "All fields are required"), db))
  /\ ((exists u, In u (users db)
                 /\ (as_text (field fields "username") = Some (usr_username u)
                     \/ as_text (field fields "email") = Some (usr_email u))) ->
      status (fst (register None fault_run salt db fields)) = 400
      /\ snd (register None fault_run salt db fields) = db
      /\ (all_present fields ->
          fst (register None fault_run salt db fields)
          = res_json 400 (message_body "Username or Email already exists")))
  /\ (forall name username email address password : string,
       offered fields name username email address password ->
       (forall u, In u (users db) ->
                  usr_username u <> username /\ usr_email u <> email) ->
       register None None salt db fields
       = (res_json 201 (message_body "User registered successfully"),
          with_user db name username email (bcrypt_hash password salt) address)).
Proof.
  split; [|split].
  - intros Hblank. unfold register.
    assert (Hguard :
      negb (truthy (field fields "name")) || negb (truthy (field fields "username"))
      || negb (truthy (field fields "email")) || negb (truthy (field fields "address"))
      || negb (truthy (field fields "password")) = true).
    { destruct Hblank as [H|[H|[H|[H|H]]]]; apply blank_falsy in H; rewrite H;
        cbn [negb]; rewrite ?orb_true_r; reflexivity. }
    rewrite Hguard. reflexivity.
  - intros (u & Hin & Hu).
    destruct (conflict_found_stored _ _ _ _ Hin Hu) as (v & Hv).
    unfold register. cbn [call]. rewrite Hv.
    split; [|split].
    + destruct (negb (truthy (field fields "name")) || _ || _ || _ || _); reflexivity.
    + destruct (negb (truthy (field fields "name")) || _ || _ || _ || _); reflexivity.
    + intros Hall. rewrite (all_present_guard _ Hall). reflexivity.
  - intros name username email address password
      (Hall & Hn & Hun & Hem & Had & Hp) Hfree.
    unfold register. rewrite (all_present_guard _ Hall). cbn [call].
    rewrite (conflict_free_stored _ _ _ _ _ Hun Hem Hfree).
    rewrite Hp. cbn [hash run].
    rewrite (insert_user_stored _ _ _ _ _ _ _ _ _ _ Hn Hun Hem Had Hfree).
    reflexivity.
Qed.

(** C9: whenever POST /register answers 201, the password field was a
    string and exactly one user row was added, whose password column holds
    the output of the hash function on that password and the salt drawn for
    the request; the column holds the submitted password itself only if the
    hash function returns its own input. *)
Theorem register_stores_hash (fault_get fault_run : option string) (salt : string)
    (db : Db) (fields : gmap string jsval) :
  status (fst (register fault_get fault_run salt db fields)) = 201 ->
  exists (password : string) (row : user),
    field fields "password" = JStr password
    /\ users (snd (register fault_get fault_run salt db fields)) = users db ++ [row]
    /\ usr_password row = bcrypt_hash password salt
    /\ (bcrypt_hash password salt <> password -> usr_password row <> password).
Proof.
  unfold register.
  destruct (negb (truthy (field fields "name")) || _ || _ || _ || _);
    [discriminate|].
  destruct fault_get as [msg|]; cbn [call]; [discriminate|].
  destruct (select_user_conflict _ _ _); [discriminate|].
  destruct (field fields "password") as [| |b|n|password|text]; cbn [hash];
    try discriminate.
  destruct fault_run as [msg|]; cbn [run]; [discriminate|].
  unfold insert_user. cbn [bind text_affinity].
  destruct (text_affinity (bind (field fields "name"))); try discriminate.
  destruct (text_affinity (bind (field fields "username"))); try discriminate.
  destruct (text_affinity (bind (field fields "email"))); try discriminate.
  destruct (text_affinity (bind (field fields "address"))); try discriminate.
  destruct (existsb _ (users db)); [discriminate|].
  destruct (existsb _ (users db)); [discriminate|].
  intros _. cbn [fst snd users].
  eexists password, _. split; [reflexivity|]. split; [reflexivity|].
  cbn [usr_password]. split; [reflexivity|]. intros H; exact H.
Qed.

(** Registration keeps usernames and emails unique. *)
Lemma register_keeps_unique (fault_get fault_run : option string) (salt : string)
    (db : Db) (fields : gmap string jsval) :
  users_unique (users db) ->
  users_unique (users (snd (register fault_get fault_run salt db fields))).
Proof.
  intros Huniq. unfold register.
  destruct (negb (truthy (field fields "name")) || _ || _ || _ || _);
    [exact Huniq|].
  destruct fault_get as [msg|]; cbn [call]; [exact Huniq|].
  destruct (select_user_conflict _ _ _); [exact Huniq|].
  destruct (hash _ _) as [msg|hashed]; [exact Huniq|].
  destruct fault_run as [msg|]; cbn [run]; [exact Huniq|].
  unfold insert_user.
  destruct (text_affinity (bind (field fields "name"))); try exact Huniq.
  destruct (text_affinity (bind (field fields "username"))) as [| |un]; try exact Huniq.
  destruct (text_affinity (bind (field fields "email"))) as [| |em]; try exact Huniq.
  destruct (text_affinity (bind (JStr hashed))); try exact Huniq.
  destruct (text_affinity (bind (field fields "address"))); try exact Huniq.
  destruct (existsb (fun u => String.eqb (usr_username u) un) (users db)) eqn:Hun;
    [exact Huniq|].
  destruct (existsb (fun u => String.eqb (usr_email u) em) (users db)) eqn:Hem;
    [exact Huniq|].
  cbn [snd users]. destruct Huniq as [Hu He]. unfold users_unique.
  rewrite !map_app. cbn [map usr_username usr_email].
  split; apply NoDup_app; (split; [assumption|]); (split; [|apply NoDup_singleton]).
  - intros x Hx Hx'. apply list_elem_of_singleton in Hx'. subst x.
    apply list_elem_of_In, in_map_iff in Hx as (u & Hu' & Hin).
    assert (existsb (fun u => String.eqb (usr_username u) un) (users db) = true) as Hc.
    { apply existsb_exists. exists u. split; [assumption|]. apply String.eqb_eq. assumption. }
    congruence.
  - intros x Hx Hx'. apply list_elem_of_singleton in Hx'. subst x.
    apply list_elem_of_In, in_map_iff in Hx as (u & Hu' & Hin).
    assert (existsb (fun u => String.eqb (usr_email u) em) (users db) = true) as Hc.
    { apply existsb_exists. exists u. split; [assumption|]. apply String.eqb_eq. assumption. }
    congruence.
Qed.

(** ** Login *)

Lemma select_user_text (rows : list user) (username : string) :
  select_user rows (JStr username)
  = List.find (fun u => String.eqb (usr_username u) username) rows.
Proof. reflexivity. Qed.

Lemma select_user_unknown (rows : list user) (username : string) :
  (forall u, In u rows -> usr_username u <> username) ->
  select_user rows (JStr username) = None.
Proof.
  intros Hno. rewrite select_user_text.
  destruct (List.find _ rows) as [v|] eqn:Hfind; [|reflexivity].
  apply List.find_some in Hfind as [Hin Hv]. apply String.eqb_eq in Hv.
  destruct (Hno v Hin Hv).
Qed.

Lemma select_user_known (rows : list user) (u : user) :
  NoDup (map usr_username rows) -> In u rows ->
  select_user rows (JStr (usr_username u)) = Some u.
Proof.
  rewrite select_user_text. induction rows as [|v rows IH]; [intros _ []|].
  cbn [map List.find]. intros Hnodup Hin. apply NoDup_cons in Hnodup as [Hv Hrest].
  destruct (String.eqb_spec (usr_username v) (usr_username u)) as [Heq|Hne].
  - destruct Hin as [->|Hin]; [reflexivity|].
    exfalso. apply Hv. rewrite Heq. apply list_elem_of_In, in_map. exact Hin.
  - destruct Hin as [->|Hin]; [congruence|]. apply IH; assumption.
Qed.

(** Login with a string password: when the store reports no failure, POST
    /login answers 401 "Invalid Username!" when no user row has the
    username; when a row has it and the submitted string does not verify
    against that row's stored hash it answers 401 "Invalid Password!", a
    different message; and when it verifies it answers 200 with success
    true. *)
Theorem login_outcomes (db : Db) (fields : gmap string jsval) (username : string) :
  field fields "username" = JStr username ->
  NoDup (map usr_username (users db)) ->
  ((forall u, In u (users db) -> usr_username u <> username) ->
   login None db fields
   = Responded (res_json 401 (login_body false "Invalid Username!")))
  /\ (forall (u : user) (password : string),
       In u (users db) -> usr_username u = username ->
       field fields "password" = JStr password ->
       (bcrypt_compare password (usr_password u) = false ->
        login None db fields
        = Responded (res_json 401 (login_body false "Invalid Password!")))
       /\ (bcrypt_compare password (usr_password u) = true ->
           login None db fields
           = Responded (res_json 200 (login_body true "Login successful!"))))
  /\ login_body false "Invalid Username!" <> login_body false "Invalid Password!".
Proof.
  intros Huser Hnodup. split; [|split].
  - intros Hno. unfold login. rewrite Huser. cbn [call].
    rewrite (select_user_unknown _ _ Hno). reflexivity.
  - intros u password Hin Hname Hpass. unfold login. rewrite Huser, Hpass.
    cbn [call]. rewrite <- Hname. rewrite (select_user_known _ _ Hnodup Hin).
    cbn [compare]. split; intros ->; reflexivity.
  - discriminate.
Qed.

(** A password that is not a string makes the comparison reject, and the
    handler sends nothing. *)
Lemma login_without_password (db : Db) (fields : gmap string jsval) (u : user) :
  select_user (users db) (field fields "username") = Some u ->
  field fields "password" = JUndefined ->
  login None db fields = Unhandled "Illegal arguments: undefined, string".
Proof.
  intros Hsel Hpass. unfold login. rewrite Hpass. cbn [call]. rewrite Hsel.
  reflexivity.
Qed.


(** ** Store failures *)


(** ** The upload middleware: fields *)

(** X2: in a multipart body every field the handler reads is a string, the
    value of the last field part of that name, and a field no part names is
    undefined; file parts never change a field. *)
Theorem upload_fields_last_wins (parts : list part) (k : string) :
  field (req_body (handleFileUpload (Multipart parts))) k
  = match last_field k parts with
    | Some v => JStr v
    | None => JUndefined
    end.
Proof.
  unfold field. cbn [handleFileUpload]. rewrite fold_body_lookup.
  destruct (last_field k parts); [reflexivity|].
  cbn [req_body]. rewrite lookup_empty. reflexivity.
Qed.

(** ** Updating and deleting: what else they do *)

Lemma with_inventory_same (db : Db) : with_inventory db (inventory db) = db.
Proof. destruct db. reflexivity. Qed.

Lemma map_unselected {A : Type} (f : A -> bool) (g : A -> A) (l : list A) :
  List.find f l = None ->
  map (fun x => if f x then g x else x) l = l.
Proof.
  induction l as [|x l IH]; cbn [map List.find]; [reflexivity|].
  destruct (f x); [discriminate|]. intros H. rewrite (IH H). reflexivity.
Qed.

(** X3: when the store reports no failure, PUT /updateProduct/:id for an id
    that selects no row answers 200 "Updated!" all the same and leaves the
    database exactly as it was. *)
Theorem update_unknown_id (db : Db) (id : string) (e : entity) :
  select_product (inventory db) id = None ->
  updateProduct None db id e = (res_json 200 (message_body "Updated!"), db).
Proof.
  intros Hsel. unfold updateProduct, select_product in *.
  destruct (req_file (handleFileUpload e)); cbn [call];
    unfold update_product_image, update_product;
    rewrite (map_unselected _ _ _ Hsel), with_inventory_same; reflexivity.
Qed.

Lemma map_selected_twice {A : Type} (f : A -> bool) (g : A -> A) (l : list A) :
  (forall x, f (g x) = f x) -> (forall x, g (g x) = g x) ->
  map (fun x => if f x then g x else x) (map (fun x => if f x then g x else x) l)
  = map (fun x => if f x then g x else x) l.
Proof.
  intros Hf Hg. rewrite map_map. apply map_ext. intros x.
  destruct (f x) eqn:Hx; [rewrite Hf, Hx; apply Hg|rewrite Hx; reflexivity].
Qed.

(** X4: an update is idempotent: sending the same PUT /updateProduct/:id a
    second time leaves the database as the first one left it. *)
Theorem update_twice (db : Db) (id : string) (e : entity) :
  snd (updateProduct None (snd (updateProduct None db id e)) id e)
  = snd (updateProduct None db id e).
Proof.
  unfold updateProduct.
  destruct (req_file (handleFileUpload e)); cbn [call snd];
    unfold update_product_image, update_product, with_inventory;
    cbn [inventory inventory_seq users users_seq bills]; f_equal;
    apply (map_selected_twice (fun r => id_eq (inv_id r) id)); reflexivity.
Qed.

Lemma selected_map_ids (f : product -> bool) (g : product -> product)
    (l : list product) :
  (forall r, inv_id (g r) = inv_id r) ->
  map inv_id (map (fun r => if f r then g r else r) l) = map inv_id l.
Proof.
  intros Hg. rewrite map_map. apply map_ext. intros r.
  destruct (f r); [apply Hg|reflexivity].
Qed.

(** X5: whatever the store does, an update neither adds nor removes a row
    nor changes an id, and every row the id does not select is still in the
    table, unchanged. *)
Theorem update_touches_only_selected (fault : option string) (db : Db) (id : string)
    (e : entity) :
  map inv_id (inventory (snd (updateProduct fault db id e))) = map inv_id (inventory db)
  /\ (forall r, In r (inventory db) -> id_eq (inv_id r) id = false ->
                In r (inventory (snd (updateProduct fault db id e)))).
Proof.
  unfold updateProduct. destruct fault as [msg|]; cbn [call].
  - destruct (req_file (handleFileUpload e)); cbn [snd];
      (split; [reflexivity|intros r Hin _; exact Hin]).
  - destruct (req_file (handleFileUpload e)); cbn [snd];
      unfold update_product_image, update_product; cbn [inventory with_inventory];
      (split;
       [apply (selected_map_ids (fun r => id_eq (inv_id r) id)); reflexivity
       |intros r Hin Hother; apply in_map_iff; exists r; rewrite Hother;
        (split; [reflexivity|assumption])]).
Qed.

Lemma filter_twice {A : Type} (f : A -> bool) (l : list A) :
  List.filter f (List.filter f l) = List.filter f l.
Proof.
  induction l as [|x l IH]; cbn [List.filter]; [reflexivity|].
  destruct (f x) eqn:Hx; [|exact IH].
  cbn [List.filter]. rewrite Hx, IH. reflexivity.
Qed.

(** X6: a delete is idempotent and takes the image with it: a second DELETE
    /deleteProduct/:id answers 200 again and changes nothing more, and GET
    /image/:id for the deleted id answers 404. *)
Theorem delete_twice (db : Db) (id : string) :
  deleteProduct None (snd (deleteProduct None db id)) id
  = (res_json 200 (message_body "Deleted!"), snd (deleteProduct None db id))
  /\ get_image None (snd (deleteProduct None db id)) id
     = res_send 404 "Image not found".
Proof.
  unfold deleteProduct, get_image, call. cbn [snd]. split.
  - f_equal. unfold delete_product, with_inventory.
    cbn [inventory inventory_seq users users_seq bills]. f_equal.
    apply filter_twice.
  - rewrite select_after_delete. reflexivity.
Qed.

(** ** Listing, fetching and images agree *)

Lemma select_by_id (rows : list product) (r : product) :
  reads_decimal_ids -> ids_unique rows -> In r rows ->
  select_product rows (show_id (inv_id r)) = Some r.
Proof.
  intros Hread. unfold ids_unique, select_product.
  induction rows as [|x rows IH]; [intros _ []|].
  cbn [map List.find]. intros Huniq Hin. apply NoDup_cons in Huniq as [Hx Hrest].
  rewrite (id_eq_show _ _ Hread).
  destruct (decide (inv_id x = inv_id r)) as [Heq|Hne].
  - rewrite bool_decide_eq_true_2 by assumption.
    destruct Hin as [->|Hin]; [reflexivity|].
    exfalso. apply Hx. rewrite Heq. apply list_elem_of_In, in_map. exact Hin.
  - rewrite bool_decide_eq_false_2 by assumption.
    destruct Hin as [->|Hin]; [congruence|]. apply IH; assumption.
Qed.

(** X7: in a table with unique ids, every row GET /products lists can be
    fetched with GET /product/:id under the decimal rendering of its id, and
    the object sent is the very entry of the listing. *)
Theorem listed_product_is_fetched (db : Db) (r : product) :
  reads_decimal_ids -> ids_unique (inventory db) -> In r (inventory db) ->
  exists entries,
    get_products None db empty = res_json 200 (JArr entries)
    /\ In (product_base64 r) entries
    /\ get_product None db (show_id (inv_id r)) = res_json 200 (product_base64 r).
Proof.
  intros Hread Huniq Hin. exists (map product_base64 (inventory db)).
  split; [reflexivity|]. split; [apply in_map; exact Hin|].
  unfold get_product, call. rewrite (select_by_id _ _ Hread Huniq Hin). reflexivity.
Qed.

(** X8: the image member GET /getInventory sends for a row never holds the
    bytes: for a row with an image it is the URL /image/<id>, and GET
    /image/:id with that id answers 200 with the row's bytes; for a row
    without an image it is null, and the image route answers 404. *)
Theorem inventory_urls_resolve (db : Db) (r : product) :
  reads_decimal_ids -> ids_unique (inventory db) -> In r (inventory db) ->
  exists entries,
    getInventory None db = res_json 200 (JArr entries)
    /\ In (product_url r) entries
    /\ match inv_image r with
       | Some image =>
           member "image" (product_url r)
           = Some (str ("/image/" ++ show_id (inv_id r)))
           /\ get_image None db (show_id (inv_id r))
              = {| status := 200; content_type := "image/jpeg"; body := Raw image |}
       | None =>
           member "image" (product_url r) = Some (JVal JNull)
           /\ get_image None db (show_id (inv_id r)) = res_send 404 "Image not found"
       end.
Proof.
  intros Hread Huniq Hin. exists (map product_url (inventory db)).
  split; [reflexivity|]. split; [apply in_map; exact Hin|].
  unfold get_image, call. rewrite (select_by_id _ _ Hread Huniq Hin).
  unfold product_url, member. cbn [List.find fst snd String.eqb Ascii.eqb Bool.eqb].
  destruct (inv_image r); split; reflexivity.
Qed.

(** X9: a product created by a request without a file has no image: the
    response's imageUrl is null, and GET /image/:id with the new id answers
    404, while GET /product/:id finds the row with a null image. *)
Theorem create_without_file (db : Db) (e : entity) :
  reads_decimal_ids ->
  req_file (handleFileUpload e) = None ->
  exists (id : Z) (row : product),
    inventory (snd (addProduct None db e)) = inventory db ++ [row]
    /\ inv_id row = id
    /\ (json_body (fst (addProduct None db e)) ≫= member "product")
         ≫= member "imageUrl" = Some (JVal JNull)
    /\ get_image None (snd (addProduct None db e)) (show_id id)
       = res_send 404 "Image not found"
    /\ get_product None (snd (addProduct None db e)) (show_id id)
       = res_json 200 (product_base64 row)
    /\ member "image" (product_base64 row) = Some (JVal JNull).
Proof.
  intros Hread Hfile. unfold addProduct. rewrite Hfile. unfold call.
  pose proof (select_inserted db
                (field (req_body (handleFileUpload e)) "name")
                (field (req_body (handleFileUpload e)) "price")
                (field (req_body (handleFileUpload e)) "stock")
                (field (req_body (handleFileUpload e)) "unit")
                (field (req_body (handleFileUpload e)) "category") None Hread) as Hsel.
  cbv zeta in Hsel.
  destruct (insert_product db _ _ _ _ _ None) as [lastID db'] eqn:Hins.
  cbn [fst snd] in *.
  eexists lastID, _. split.
  { unfold insert_product in Hins. injection Hins as Hid <-. cbn [inventory].
    rewrite Hid. reflexivity. }
  split; [reflexivity|]. split; [reflexivity|].
  unfold get_image, get_product, call. rewrite Hsel. cbn [inv_image].
  repeat split; reflexivity.
Qed.

Lemma filter_app_last {A : Type} (f : A -> bool) (l : list A) (x : A) :
  f x = false -> List.filter f (l ++ [x]) = List.filter f l.
Proof.
  intros Hx. rewrite List.filter_app. cbn [List.filter]. rewrite Hx.
  apply app_nil_r.
Qed.

(** X10: a product created without a category (the field missing or null)
    is stored with a NULL category, which no category filter matches: every
    GET /products with a category answers after the creation what it
    answered before. *)
Theorem uncategorised_not_filtered (db : Db) (e : entity) (query : gmap string jsval) :
  bind (field (req_body (handleFileUpload e)) "category") = SNull ->
  truthy (field query "category") = true ->
  get_products None (snd (addProduct None db e)) query = get_products None db query.
Proof.
  intros Hnull Hq. unfold get_products. rewrite Hq. unfold call.
  unfold addProduct, call. cbn [snd insert_product inventory].
  unfold select_category. rewrite filter_app_last; [reflexivity|].
  cbn [inv_category]. rewrite Hnull. reflexivity.
Qed.

(** ** What every request keeps *)

Lemma insert_user_shape (db : Db) (name username email password address : jsval) :
  match insert_user db name username email password address with
  | Ok db' =>
      inventory db' = inventory db
      /\ inventory_seq db' = inventory_seq db
      /\ bills db' = bills db
      /\ exists row, users db' = users db ++ [row]
  | Err _ => True
  end.
Proof.
  unfold insert_user.
  destruct (text_affinity (bind name)); try exact I.
  destruct (text_affinity (bind username)); try exact I.
  destruct (text_affinity (bind email)); try exact I.
  destruct (text_affinity (bind password)); try exact I.
  destruct (text_affinity (bind address)); try exact I.
  destruct (existsb _ (users db)); [exact I|].
  destruct (existsb _ (users db)); [exact I|].
  cbn [inventory inventory_seq bills users].
  repeat split. eexists. reflexivity.
Qed.

Lemma register_other_tables (fault_get fault_run : option string) (salt : string)
    (db : Db) (fields : gmap string jsval) :
  inventory (snd (register fault_get fault_run salt db fields)) = inventory db
  /\ inventory_seq (snd (register fault_get fault_run salt db fields)) = inventory_seq db
  /\ bills (snd (register fault_get fault_run salt db fields)) = bills db.
Proof.
  unfold register.
  destruct (negb (truthy (field fields "name")) || _ || _ || _ || _);
    [repeat split|].
  destruct fault_get as [msg|]; cbn [call]; [repeat split|].
  destruct (select_user_conflict _ _ _); [repeat split|].
  destruct (hash _ _) as [msg|hashed]; [repeat split|].
  destruct fault_run as [msg|]; cbn [run]; [repeat split|].
  pose proof (insert_user_shape db (field fields "name") (field fields "username")
                (field fields "email") (JStr hashed) (field fields "address")) as H.
  destruct (insert_user _ _ _ _ _ _) as [msg|db']; [repeat split|].
  cbn [snd]. destruct H as (H1 & H2 & H3 & _). repeat split; assumption.
Qed.

Lemma register_appends (fault_get fault_run : option string) (salt : string)
    (db : Db) (fields : gmap string jsval) :
  exists added,
    users (snd (register fault_get fault_run salt db fields)) = users db ++ added.
Proof.
  unfold register.
  destruct (negb (truthy (field fields "name")) || _ || _ || _ || _);
    [exists []; symmetry; apply app_nil_r|].
  destruct fault_get as [msg|]; cbn [call]; [exists []; symmetry; apply app_nil_r|].
  destruct (select_user_conflict _ _ _); [exists []; symmetry; apply app_nil_r|].
  destruct (hash _ _) as [msg|hashed]; [exists []; symmetry; apply app_nil_r|].
  destruct fault_run as [msg|]; cbn [run]; [exists []; symmetry; apply app_nil_r|].
  pose proof (insert_user_shape db (field fields "name") (field fields "username")
                (field fields "email") (JStr hashed) (field fields "address")) as H.
  destruct (insert_user _ _ _ _ _ _) as [msg|db'];
    [exists []; symmetry; apply app_nil_r|].
  cbn [snd]. destruct H as (_ & _ & _ & row & Hrow). exists [row]. exact Hrow.
Qed.

Lemma insert_keeps_bound (db : Db) (name price stock unit category : jsval)
    (image : option bytes) :
  Forall (fun r => (inv_id r <= inventory_seq db)%Z) (inventory db) ->
  Forall (fun r => (inv_id r
                    <= inventory_seq
                         (snd (insert_product db name price stock unit category image)))%Z)
    (inventory (snd (insert_product db name price stock unit category image))).
Proof.
  intros Hbound. cbn [insert_product snd inventory inventory_seq].
  apply Forall_app. split.
  - eapply Forall_impl; [exact Hbound|]. cbn beta. intros r Hr. unfold next_rowid. lia.
  - apply Forall_singleton. cbn [inv_id]. lia.
Qed.

Lemma filter_keeps_ids_unique (f : product -> bool) (rows : list product) :
  ids_unique rows -> ids_unique (List.filter f rows).
Proof.
  unfold ids_unique. induction rows as [|x rows IH]; [intros H; exact H|].
  cbn [map List.filter]. intros H. apply NoDup_cons in H as [Hx Hrest].
  destruct (f x); [|apply IH; exact Hrest].
  cbn [map]. apply NoDup_cons. split; [|apply IH; exact Hrest].
  intros Hin. apply Hx. apply list_elem_of_In in Hin. apply list_elem_of_In.
  apply in_map_iff in Hin as (y & Hy & Hin). apply in_map_iff. exists y.
  split; [exact Hy|]. apply filter_In in Hin. apply Hin.
Qed.

Lemma filter_keeps_bound (f : product -> bool) (seq : Z) (rows : list product) :
  Forall (fun r => (inv_id r <= seq)%Z) rows ->
  Forall (fun r => (inv_id r <= seq)%Z) (List.filter f rows).
Proof.
  intros H. apply List.Forall_forall. intros r Hin. apply filter_In in Hin as [Hin _].
  revert r Hin. apply List.Forall_forall. exact H.
Qed.

Lemma bound_by_ids (seq : Z) (rows : list product) :
  Forall (fun r => (inv_id r <= seq)%Z) rows
  <-> Forall (fun i => (i <= seq)%Z) (map inv_id rows).
Proof. symmetry. apply Forall_map. Qed.

Lemma handle_keeps_consistent (env : environment) (db : Db) (req : request) :
  consistent db ->
  consistent (snd (handle env db req))
  /\ (inventory_seq db <= inventory_seq (snd (handle env db req)))%Z.
Proof.
  intros Hdb. pose proof Hdb as (Hids & Hbound & Husers).
  destruct req as [id|query|e| |fields|fields|id| |id|id e]; cbn [handle snd];
    try (split; [exact Hdb|lia]).
  - (* POST /addProduct *)
    unfold addProduct. destruct (env_fault env) as [msg|]; cbn [call snd].
    + split; [exact Hdb|lia].
    + split; [split; [|split]|].
      * apply insert_keeps_ids_unique. exact Hids.
      * apply insert_keeps_bound. exact Hbound.
      * exact Husers.
      * cbn [insert_product snd inventory_seq]. unfold next_rowid. lia.
  - (* POST /register *)
    destruct (register_other_tables (env_fault env) (env_fault_insert env)
                (env_salt env) db fields) as (Hinv & Hseq & _).
    split; [|rewrite Hseq; lia]. unfold consistent. rewrite Hinv, Hseq.
    split; [exact Hids|]. split; [exact Hbound|].
    apply (register_keeps_unique _ _ _ _ _ Husers).
  - (* DELETE /deleteProduct/:id *)
    unfold deleteProduct. destruct (env_fault env) as [msg|]; cbn [call snd].
    + split; [exact Hdb|lia].
    + split; [|cbn; lia]. unfold consistent, delete_product.
      cbn [inventory inventory_seq users with_inventory].
      split; [apply filter_keeps_ids_unique; exact Hids|].
      split; [apply filter_keeps_bound; exact Hbound|exact Husers].
  - (* PUT /updateProduct/:id *)
    unfold updateProduct.
    destruct (req_file (handleFileUpload e)); destruct (env_fault env) as [msg|];
      cbn [call snd]; try (split; [exact Hdb|lia]);
      (split; [|cbn; lia]); unfold consistent, ids_unique;
      rewrite bound_by_ids;
      unfold update_product_image, update_product;
      cbn [inventory inventory_seq users with_inventory];
      rewrite (selected_map_ids (fun r => id_eq (inv_id r) id)) by reflexivity;
      (split; [exact Hids|]); (split; [apply bound_by_ids; exact Hbound|exact Husers]).
Qed.

Lemma serve_keeps_consistent (trace : list (environment * request)) (db : Db) :
  consistent db ->
  consistent (serve db trace) /\ (inventory_seq db <= inventory_seq (serve db trace))%Z.
Proof.
  revert db. induction trace as [|[env req] trace IH]; intros db Hdb.
  - split; [exact Hdb|cbn; lia].
  - cbn [serve fold_left fst snd].
    destruct (handle_keeps_consistent env db req Hdb) as [Hnext Hseq].
    destruct (IH _ Hnext) as [Hend Hseq']. split; [exact Hend|].
    unfold serve in Hseq'. lia.
Qed.

(** X11: whatever requests arrive, in whatever order, and whatever failures
    the store reports along the way, the database the server reaches from the
    empty one has unique product ids, none above the AUTOINCREMENT counter,
    and unique usernames and emails. *)
Theorem reachable_is_consistent (trace : list (environment * request)) :
  consistent (serve empty_db trace).
Proof.
  apply serve_keeps_consistent. unfold consistent, ids_unique, users_unique.
  cbn. repeat split; constructor.
Qed.

(** X12: no request changes the bills table, and none changes or removes a
    user: after any sequence of requests the bills are the same and the users
    table is the old one with rows added at its end. *)
Theorem bills_fixed_users_grow (trace : list (environment * request)) (db : Db) :
  bills (serve db trace) = bills db
  /\ exists added, users (serve db trace) = users db ++ added.
Proof.
  revert db. induction trace as [|[env req] trace IH]; intros db.
  - split; [reflexivity|]. exists []. symmetry. apply app_nil_r.
  - cbn [serve fold_left fst snd].
    destruct (IH (snd (handle env db req))) as [Hbills (added & Husers)].
    unfold serve in Hbills, Husers. rewrite Hbills, Husers.
    destruct req as [id|query|e| |fields|fields|id| |id|id e]; cbn [handle snd];
      try (split; [reflexivity|exists added; reflexivity]).
    + unfold addProduct. destruct (env_fault env); cbn [call snd];
        (split; [reflexivity|exists added; reflexivity]).
    + destruct (register_other_tables (env_fault env) (env_fault_insert env)
                  (env_salt env) db fields) as (_ & _ & Hb).
      destruct (register_appends (env_fault env) (env_fault_insert env)
                  (env_salt env) db fields) as (new & Hnew).
      split; [exact Hb|]. rewrite Hnew. exists (new ++ added).
      symmetry. apply app_assoc.
    + unfold deleteProduct. destruct (env_fault env); cbn [call snd];
        (split; [reflexivity|exists added; reflexivity]).
    + unfold updateProduct.
      destruct (req_file (handleFileUpload e)); destruct (env_fault env);
        cbn [call snd]; (split; [reflexivity|exists added; reflexivity]).
Qed.

(** X13: AUTOINCREMENT never hands out an id again: a product created after
    any sequence of requests, deletions included, gets an id greater than
    the id of every row the table held before that sequence. *)
Theorem ids_never_reused (db : Db) (r : product) (trace : list (environment * request))
    (e : entity) :
  consistent db -> In r (inventory db) ->
  exists row,
    inventory (snd (addProduct None (serve db trace) e))
    = inventory (serve db trace) ++ [row]
    /\ (inv_id r < inv_id row)%Z.
Proof.
  intros Hdb Hin.
  destruct (serve_keeps_consistent trace db Hdb) as [_ Hseq].
  destruct Hdb as (_ & Hbound & _).
  pose proof (proj1 (List.Forall_forall _ _) Hbound r Hin) as Hr. cbn beta in Hr.
  unfold addProduct, call. cbn [snd insert_product inventory].
  eexists. split; [reflexivity|]. cbn [inv_id]. unfold next_rowid. lia.
Qed.

(** X15: a request that does not succeed changes nothing: whenever the reply
    is not a 200 or a 201 (or no reply is sent at all), the database after
    the request is the database before it. *)
Theorem failure_changes_nothing (env : environment) (db : Db) (req : request) :
  succeeded (fst (handle env db req)) = false ->
  snd (handle env db req) = db.
Proof.
  destruct req as [id|query|e| |fields|fields|id| |id|id e]; cbn [handle fst snd];
    try reflexivity.
  - unfold addProduct. destruct (env_fault env); cbn [call fst snd];
      [reflexivity|discriminate].
  - unfold register.
    destruct (negb (truthy (field fields "name")) || _ || _ || _ || _);
      [reflexivity|].
    destruct (env_fault env) as [msg|]; cbn [call]; [reflexivity|].
    destruct (select_user_conflict _ _ _); [reflexivity|].
    destruct (hash _ _) as [msg|hashed]; [reflexivity|].
    destruct (run _ _) as [msg|db']; [reflexivity|discriminate].
  - unfold deleteProduct. destruct (env_fault env); cbn [call fst snd];
      [reflexivity|discriminate].
  - unfold updateProduct.
    destruct (req_file (handleFileUpload e)); destruct (env_fault env);
      cbn [call fst snd]; first [reflexivity|discriminate].
Qed.

(** ** Registration and login: edges *)


(** X17: POST /login for an existing username with a password that is not
    a string (missing, null, a number, ...) sends no response at all:
    bcrypt.compare rejects and nothing catches the rejection. *)
Theorem login_needs_string_password (db : Db) (fields : gmap string jsval) (u : user) :
  select_user (users db) (field fields "username") = Some u ->
  (forall s, field fields "password" <> JStr s) ->
  login None db fields
  = Unhandled ("Illegal arguments: " ++ typeof (field fields "password") ++ ", string").
Proof.
  intros Hsel Hpass. unfold login. cbn [call]. rewrite Hsel.
  destruct (field fields "password") as [| |b|n|s|text]; try reflexivity.
  destruct (Hpass s eq_refl).
Qed.

(** X18: POST /register with five present fields, no conflicting row and a
    password that is not a string answers 500 "Error hashing password" and
    stores nothing. *)
Theorem register_needs_string_password (fault_run : option string) (salt : string)
    (db : Db) (fields : gmap string jsval) :
  truthy (field fields "name") = true -> truthy (field fields "username") = true ->
  truthy (field fields "email") = true -> truthy (field fields "address") = true ->
  truthy (field fields "password") = true ->
  (forall s, field fields "password" <> JStr s) ->
  select_user_conflict (users db) (field fields "username") (field fields "email") = None ->
  register None fault_run salt db fields
  = (res_json 500 (message_body "Error hashing password"), db).
Proof.
  intros Hn Hu He Ha Hp Hpass Hfree. unfold register.
  rewrite Hn, Hu, He, Ha, Hp. cbn [negb orb call]. rewrite Hfree.
  destruct (field fields "password") as [| |b|n|s|text]; try reflexivity.
  destruct (Hpass s eq_refl).
Qed.

(** X19: POST /register answers 400 "All fields are required" exactly when
    one of the five fields is falsy (undefined, null, false, 0 or the empty
    string), whatever the store and the other fields are. *)
Theorem register_required_iff (fault_get fault_run : option string) (salt : string)
    (db : Db) (fields : gmap string jsval) :
  fst (register fault_get fault_run salt db fields)
  = res_json 400 (message_body "All fields are required")
  <-> (truthy (field fields "name") = false \/ truthy (field fields "username") = false
       \/ truthy (field fields "email") = false \/ truthy (field fields "address") = false
       \/ truthy (field fields "password") = false).
Proof.
  unfold register.
  destruct (truthy (field fields "name")), (truthy (field fields "username")),
    (truthy (field fields "email")), (truthy (field fields "address")),
    (truthy (field fields "password")); cbn [negb orb fst];
    try (split; [intros _|reflexivity]; auto 6; fail).
  split; [|intros [H|[H|[H|[H|H]]]]; discriminate].
  destruct fault_get as [msg|]; cbn [call]; [discriminate|].
  destruct (select_user_conflict _ _ _); [discriminate|].
  destruct (hash _ _) as [msg|hashed]; [discriminate|].
  destruct (run _ _) as [msg|db']; discriminate.
Qed.

(** ** Ids that are not numbers *)

Lemma select_non_numeric (rows : list product) (id : string) :
  text_to_num id = None -> select_product rows id = None.
Proof.
  intros Hid. unfold select_product.
  induction rows as [|r rows IH]; cbn [List.find]; [reflexivity|].
  unfold id_eq at 1. cbn [numeric_affinity]. rewrite Hid. exact IH.
Qed.

(** X20: an id that SQLite does not read as a number selects no row: GET
    /product/:id and GET /image/:id answer 404, while DELETE
    /deleteProduct/:id and PUT /updateProduct/:id answer 200 and leave the
    table as it was. *)
Theorem non_numeric_id (db : Db) (id : string) (e : entity) :
  text_to_num id = None ->
  get_product None db id = res_json 404 (error_body "Product not found")
  /\ get_image None db id = res_send 404 "Image not found"
  /\ fst (deleteProduct None db id) = res_json 200 (message_body "Deleted!")
  /\ inventory (snd (deleteProduct None db id)) = inventory db
  /\ fst (updateProduct None db id e) = res_json 200 (message_body "Updated!")
  /\ inventory (snd (updateProduct None db id e)) = inventory db.
Proof.
  intros Hid. pose proof (select_non_numeric (inventory db) id Hid) as Hsel.
  unfold get_product, get_image, deleteProduct, updateProduct, call. rewrite Hsel.
  cbn [fst snd]. split; [reflexivity|]. split; [reflexivity|]. split; [reflexivity|].
  split; [apply delete_absent; exact Hsel|].
  unfold select_product in Hsel.
  destruct (req_file (handleFileUpload e)); cbn [fst snd];
    (split; [reflexivity|]); unfold update_product_image, update_product;
    cbn [inventory with_inventory]; apply (map_unselected _ _ _ Hsel).
Qed.

End Server.

(** ** The properties on the shop *)

Lemma decimal_reads_ids : reads_decimal_ids decimal_to_num.
Proof.
  intros z. exists (inject_Z z). split; [|reflexivity].
  unfold decimal_to_num, show_id. rewrite NilZero.isi.
  - rewrite DecimalZ.of_to. reflexivity.
  - destruct z as [|p|p]; cbn; try discriminate.
    intros [= H]. exact (DecimalPos.Unsigned.to_uint_nonnil p H).
  - destruct z as [|p|p]; cbn; try discriminate.
    intros [= H]. exact (DecimalPos.Unsigned.to_uint_nonnil p H).
Qed.


(** A stock sent as the text 9007199254740993 is stored whole in its INTEGER
    column and comes back as the double next to it. *)
Example stock_beyond_2_53 :
  (json_body (get_product decimal_to_num nearest_double base64_encode None
                (snd (addProduct num_to_decimal decimal_to_num None shop hoard_upload))
                "3")
   ≫= member "stock")
  = Some (JVal (JNum (inject_Z 9007199254740992))).
Proof. reflexivity. Qed.

(** The first product of an empty shop, sent as JSON, gets the id 1. *)
Example add_rice_to_empty_shop :
  fst (addProduct num_to_decimal decimal_to_num None empty_db
         (Parsed (list_to_map [("name", JStr "Rice"); ("price", JNum (inject_Z 50));
                               ("stock", JNum (inject_Z 100)); ("unit", JStr "kg");
                               ("category", JStr "grains")])))
  = res_json 200
      (JObj [("message", str "Product added!");
             ("product",
              JObj [("id", num 1); ("name", str "Rice");
                    ("price", JVal (JNum (inject_Z 50)));
                    ("stock", JVal (JNum (inject_Z 100)));
                    ("unit", str "kg"); ("category", str "grains");
                    ("imageUrl", JVal JNull)])]).
Proof. reflexivity. Qed.

Lemma update_replaces_fields_witness :
  (exists row',
     select_product decimal_to_num
       (inventory (snd (updateProduct num_to_decimal decimal_to_num None shop "1"
                          basmati_update))) "1" = Some row'
     /\ inv_name row' = SText "Basmati"
     /\ inv_price row' = SNum (inject_Z 60)
     /\ inv_image row' = Some png_magic)
  /\ (exists row',
        select_product decimal_to_num
          (inventory (snd (updateProduct num_to_decimal decimal_to_num None shop "1"
                             photo_update))) "1" = Some row'
        /\ inv_price row' = SNum (inject_Z 55)
        /\ inv_image row' = Some [xff; xd8; xff; xe0]).
Proof.
  split.
  - destruct (update_replaces_fields num_to_decimal decimal_to_num shop "1"
                basmati_update rice)
      as (_ & row' & Hsel & _ & Hname & Hprice & _ & _ & _ & Hkeep & _).
    + reflexivity.
    + exists row'. split; [exact Hsel|]. split; [exact Hname|].
      split; [exact Hprice|]. apply Hkeep. reflexivity.
  - destruct (update_replaces_fields num_to_decimal decimal_to_num shop "1"
                photo_update rice)
      as (_ & row' & Hsel & _ & _ & Hprice & _ & _ & _ & _ & Hnew).
    + reflexivity.
    + exists row'. split; [exact Hsel|]. split; [exact Hprice|].
      apply Hnew. reflexivity.
Defined.

(** With an empty category the listing holds every row of the shop, while
    no row of the shop has the empty text as its category. *)
Lemma empty_category_lists_every_row :
  get_products num_to_decimal nearest_double base64_encode None shop {["category" := JStr ""]}
  = res_json 200 (JArr (map (product_base64 nearest_double base64_encode) [rice; pepper]))
  /\ List.filter (fun r => bool_decide (inv_category r = SText "")) (inventory shop) = []
  /\ get_products num_to_decimal nearest_double base64_encode None shop {["category" := JStr ""]}
     <> res_json 200
          (JArr (map (product_base64 nearest_double base64_encode)
                   (List.filter (fun r => bool_decide (inv_category r = SText ""))
                      (inventory shop)))).
Proof. split; [reflexivity|]. split; [reflexivity|]. discriminate. Qed.

Lemma products_by_category_witness :
  get_products num_to_decimal nearest_double base64_encode None shop {["category" := JStr "spices"]}
  = res_json 200 (JArr (map (product_base64 nearest_double base64_encode) [pepper]))
  /\ get_products num_to_decimal nearest_double base64_encode None shop ∅
     = res_json 200 (JArr (map (product_base64 nearest_double base64_encode) [rice; pepper])).
Proof.
  destruct (products_by_category num_to_decimal nearest_double base64_encode shop
              {["category" := JStr "spices"]}) as [Hsome _].
  destruct (products_by_category num_to_decimal nearest_double base64_encode shop ∅) as [_ Hnone].
  split.
  - apply (Hsome "spices"); [discriminate|reflexivity].
  - apply Hnone. reflexivity.
Defined.

Lemma delete_then_get_is_404_witness :
  status (fst (deleteProduct decimal_to_num None shop "7")) = 200
  /\ inventory (snd (deleteProduct decimal_to_num None shop "7")) = inventory shop
  /\ get_product decimal_to_num nearest_double base64_encode None
       (snd (deleteProduct decimal_to_num None shop "1")) "1"
     = res_json 404 (error_body "Product not found").
Proof.
  destruct (delete_then_get_is_404 decimal_to_num nearest_double base64_encode shop "7")
    as (_ & _ & Habsent).
  destruct (delete_then_get_is_404 decimal_to_num nearest_double base64_encode shop "1")
    as (_ & Hgone & _).
  destruct Habsent as [Hstatus Hsame]; [reflexivity|].
  split; [exact Hstatus|]. split; [exact Hsame|exact Hgone].
Defined.

Lemma image_404_iff_failure_or_absent_witness :
  status (get_image decimal_to_num None shop "2") = 404
  /\ status (get_image decimal_to_num None shop "3") = 404
  /\ status (get_image decimal_to_num (Some "SQLITE_BUSY: database is locked") shop "1")
     = 404
  /\ get_image decimal_to_num None shop "1"
     = {| status := 200; content_type := "image/jpeg"; body := Raw png_magic |}.
Proof.
  destruct (image_404_iff_failure_or_absent decimal_to_num None shop "2")
    as [[_ Hnull] _].
  destruct (image_404_iff_failure_or_absent decimal_to_num None shop "3")
    as [[_ Habsent] _].
  destruct (image_404_iff_failure_or_absent decimal_to_num
              (Some "SQLITE_BUSY: database is locked") shop "1") as [[_ Hfailed] _].
  destruct (image_404_iff_failure_or_absent decimal_to_num None shop "1")
    as [_ Hfound].
  split; [|split; [|split]].
  - apply Hnull. right. right. exists pepper. split; reflexivity.
  - apply Habsent. right. left. reflexivity.
  - apply Hfailed. left. eexists. reflexivity.
  - apply (Hfound rice png_magic); reflexivity.
Defined.

(** The shop has a row for the id 1, with an image, and yet GET /image/1
    answers 404 when the store reports a failure. *)
Lemma image_404_though_present :
  select_product decimal_to_num (inventory shop) "1" = Some rice
  /\ inv_image rice = Some png_magic
  /\ status (get_image decimal_to_num (Some "SQLITE_BUSY: database is locked") shop "1")
     = 404.
Proof. repeat split. Qed.

Lemma register_checks_witness :
  register num_to_decimal toy_hash None None "$2a$10$/" shop
    (delete "email" bob_registration)
  = (res_json 400 (message_body "All fields are required"), shop)
  /\ register num_to_decimal toy_hash None None "$2a$10$/" shop alias_registration
     = (res_json 400 (message_body "Username or Email already exists"), shop)
  /\ status (fst (register num_to_decimal toy_hash None None "$2a$10$/" shop
                    bob_registration)) = 201.
Proof.
  destruct (register_checks num_to_decimal toy_hash None None "$2a$10$/" shop
              (delete "email" bob_registration)) as [Hblank _].
  destruct (register_checks num_to_decimal toy_hash None None "$2a$10$/" shop
              alias_registration) as (_ & Htaken & _).
  destruct (register_checks num_to_decimal toy_hash None None "$2a$10$/" shop
              bob_registration) as (_ & _ & Hfree).
  split; [|split].
  - apply Hblank. right. right. left. left. reflexivity.
  - destruct Htaken as (_ & Hsame & Hbody).
    + exists alice. split; [left; reflexivity|right; reflexivity].
    + apply injective_projections; [apply Hbody; repeat split|exact Hsame].
  - rewrite (Hfree "Bob" "bob" "bob@example.com" "2 Side Road" "builder");
      [reflexivity|repeat split|].
    intros u [<-|[]]. split; discriminate.
Defined.

(** The five fields are present and no row of the shop has the username or
    the email, and yet the answer is 500: the password is a number. *)
Lemma numeric_password_answers_500 :
  all_present numeric_password
  /\ (forall u, In u (users shop) ->
                as_text num_to_decimal (field numeric_password "username")
                <> Some (usr_username u)
                /\ as_text num_to_decimal (field numeric_password "email")
                   <> Some (usr_email u))
  /\ register num_to_decimal toy_hash None None "$2a$10$/" shop numeric_password
     = (res_json 500 (message_body "Error hashing password"), shop)
  /\ status (fst (register num_to_decimal toy_hash None None "$2a$10$/" shop
                    numeric_password)) <> 201.
Proof.
  split; [repeat split|]. split; [|split; [reflexivity|discriminate]].
  intros u [<-|[]]. split; discriminate.
Qed.

Lemma register_stores_hash_witness :
  exists row,
    users (snd (register num_to_decimal toy_hash None None "$2a$10$/" shop
                  bob_registration)) = [alice; row]
    /\ usr_password row = toy_hash "builder" "$2a$10$/"
    /\ usr_password row <> "builder".
Proof.
  destruct (register_stores_hash num_to_decimal toy_hash None None "$2a$10$/" shop
              bob_registration) as (password & row & Hfield & Husers & Hhash & Hplain).
  - reflexivity.
  - injection Hfield as <-. exists row. split; [exact Husers|].
    split; [exact Hhash|]. apply Hplain. discriminate.
Defined.

Lemma login_outcomes_witness :
  login num_to_decimal toy_compare None shop (login_request "alice" "rabbit")
  = Responded (res_json 401 (login_body false "Invalid Password!"))
  /\ login num_to_decimal toy_compare None shop (login_request "alice" "wonderland")
     = Responded (res_json 200 (login_body true "Login successful!"))
  /\ login num_to_decimal toy_compare None shop (login_request "mallory" "wonderland")
     = Responded (res_json 401 (login_body false "Invalid Username!")).
Proof.
  assert (Hunique : NoDup (map usr_username (users shop))).
  { apply NoDup_singleton. }
  destruct (login_outcomes num_to_decimal toy_compare shop
              (login_request "alice" "rabbit") "alice") as (_ & Hwrong & _);
    [reflexivity|exact Hunique|].
  destruct (login_outcomes num_to_decimal toy_compare shop
              (login_request "alice" "wonderland") "alice") as (_ & Hright & _);
    [reflexivity|exact Hunique|].
  destruct (login_outcomes num_to_decimal toy_compare shop
              (login_request "mallory" "wonderland") "mallory") as (Hunknown & _);
    [reflexivity|exact Hunique|].
  split; [|split].
  - destruct (Hwrong alice "rabbit") as [Hno _];
      [left; reflexivity|reflexivity|reflexivity|].
    apply Hno. reflexivity.
  - destruct (Hright alice "wonderland") as [_ Hyes];
      [left; reflexivity|reflexivity|reflexivity|].
    apply Hyes. reflexivity.
  - apply Hunknown. intros u [<-|[]]. discriminate.
Defined.

(** C6 (a defect of the code): alice is a user of the shop, the password
    sent is the number 1234, which does not verify against her hash, and
    POST /login sends no response at all, where the claim has a 401
    "Invalid Password!": bcrypt.compare rejects and nothing catches it. *)
Lemma login_numeric_password_unanswered :
  In alice (users shop)
  /\ login num_to_decimal toy_compare None shop
       (list_to_map [("username", JStr "alice"); ("password", JNum (inject_Z 1234))])
     = Unhandled "Illegal arguments: number, string"
  /\ login num_to_decimal toy_compare None shop
       (list_to_map [("username", JStr "alice"); ("password", JNum (inject_Z 1234))])
     <> Responded (res_json 401 (login_body false "Invalid Password!")).
Proof. split; [left; reflexivity|]. split; [reflexivity|discriminate]. Qed.



(** ** The further properties on the shop *)

Lemma shop_consistent : consistent shop.
Proof.
  unfold consistent, ids_unique, users_unique. cbn.
  split; [|split; [|split]].
  - apply NoDup_cons. split; [|apply NoDup_singleton].
    intros H. apply list_elem_of_singleton in H. discriminate.
  - repeat constructor; discriminate.
  - apply NoDup_singleton.
  - apply NoDup_singleton.
Qed.

Lemma upload_last_file_witness :
  req_file (handleFileUpload two_files) = Some png_magic.
Proof.
  apply (upload_last_file
           [FieldPart "name" "Oats"; FilePart "image" [[x01]; [x02]];
            FieldPart "name" "Barley"]
           [FieldPart "unit" "kg"] "photo" [[x89; x50]; [x4e; x47]]).
  reflexivity.
Defined.

Lemma update_unknown_id_witness :
  updateProduct num_to_decimal decimal_to_num None shop "7" basmati_update
  = (res_json 200 (message_body "Updated!"), shop).
Proof. apply update_unknown_id. reflexivity. Defined.

Lemma listed_product_is_fetched_witness :
  get_product decimal_to_num nearest_double base64_encode None shop "2"
  = res_json 200 (product_base64 nearest_double base64_encode pepper).
Proof.
  destruct (listed_product_is_fetched num_to_decimal decimal_to_num nearest_double base64_encode
              shop pepper) as (entries & _ & _ & Hget).
  - exact decimal_reads_ids.
  - exact (proj1 shop_consistent).
  - right. left. reflexivity.
  - exact Hget.
Defined.

Lemma inventory_urls_resolve_witness :
  member "image" (product_url nearest_double rice) = Some (str "/image/1")
  /\ get_image decimal_to_num None shop "1"
     = {| status := 200; content_type := "image/jpeg"; body := Raw png_magic |}.
Proof.
  destruct (inventory_urls_resolve decimal_to_num nearest_double shop rice) as (entries & _ & _ & H).
  - exact decimal_reads_ids.
  - exact (proj1 shop_consistent).
  - left. reflexivity.
  - exact H.
Defined.

Lemma create_without_file_witness :
  get_image decimal_to_num None
    (snd (addProduct num_to_decimal decimal_to_num None shop plain_upload)) "3"
  = res_send 404 "Image not found".
Proof.
  destruct (create_without_file num_to_decimal decimal_to_num nearest_double base64_encode shop
              plain_upload) as (id & row & Hrows & Hid & _ & Himage & _).
  - exact decimal_reads_ids.
  - reflexivity.
  - injection Hrows as Hrow. subst row. cbn in Hid. subst id. exact Himage.
Defined.

Lemma uncategorised_not_filtered_witness :
  get_products num_to_decimal nearest_double base64_encode None
    (snd (addProduct num_to_decimal decimal_to_num None shop plain_upload))
    {["category" := JStr "grains"]}
  = get_products num_to_decimal nearest_double base64_encode None shop {["category" := JStr "grains"]}.
Proof. apply uncategorised_not_filtered; reflexivity. Defined.

Lemma ids_never_reused_witness :
  exists row,
    inventory (snd (addProduct num_to_decimal decimal_to_num None
                      (serve num_to_decimal decimal_to_num nearest_double base64_encode toy_hash toy_compare
                         shop busy_day) wheat_upload))
    = inventory (serve num_to_decimal decimal_to_num nearest_double base64_encode toy_hash toy_compare
                   shop busy_day) ++ [row]
    /\ (inv_id pepper < inv_id row)%Z.
Proof.
  apply ids_never_reused.
  - apply shop_consistent.
  - right. left. reflexivity.
Defined.


Lemma failure_changes_nothing_witness :
  snd (handle num_to_decimal decimal_to_num nearest_double base64_encode toy_hash toy_compare
         (calm "$2a$10$/") shop (PostRegister alias_registration)) = shop.
Proof. apply failure_changes_nothing. reflexivity. Defined.


Lemma login_needs_string_password_witness :
  login num_to_decimal toy_compare None shop {["username" := JStr "alice"]}
  = Unhandled "Illegal arguments: undefined, string".
Proof.
  rewrite (login_needs_string_password num_to_decimal toy_compare shop
             {["username" := JStr "alice"]} alice).
  - reflexivity.
  - reflexivity.
  - intros s. discriminate.
Defined.

Lemma register_needs_string_password_witness :
  register num_to_decimal toy_hash None None "$2a$10$/" shop numeric_password
  = (res_json 500 (message_body "Error hashing password"), shop).
Proof.
  apply register_needs_string_password; try reflexivity.
  intros s. discriminate.
Defined.

Lemma non_numeric_id_witness :
  get_product decimal_to_num nearest_double base64_encode None shop "abc"
  = res_json 404 (error_body "Product not found")
  /\ inventory (snd (deleteProduct decimal_to_num None shop "abc")) = inventory shop.
Proof.
  destruct (non_numeric_id num_to_decimal decimal_to_num nearest_double base64_encode shop "abc"
              basmati_update) as (Hget & _ & _ & Hdelete & _).
  - reflexivity.
  - split; [exact Hget|exact Hdelete].
Defined.
